(** * iot-greengrass-pipeline: emission evaluator, dual-sink handler and
      fleet publishers, embedded from the Python sources.

    Source files embedded here:
    - [greengrass/greengrass_component/process_emission.py]  (module [process_emission])
    - [greengrass/greengrass_component/main-mqtt.py]         (module [main_mqtt])
    - [vehicle-data/lab4_emulator_client.py]                 (module [emulator_mqtt])
    - [lab4_emulator_client.py]                              (module [emulator_https])

    Python values that reach the code are JSON values; Python [float] is
    IEEE-754 binary64, modelled with the Standard Library's [spec_float]
    (precision 53, exponent bound 1024, round to nearest even).  A Python
    [str] is a Rocq [string] whose characters stand for the code points
    U+0000 to U+00FF.  Effects (log calls, sink calls, prints, sleeps) are
    recorded in a trace threaded through a small state-and-exception monad. *)

From Stdlib Require Import ZArith String Ascii List Bool Lia DecimalString.
From Stdlib Require Import Floats.SpecFloat.
From stdpp Require Import base option list strings gmap.

#[local] Set Warnings "-register-all".
#[local] Open Scope string_scope.
#[local] Open Scope Z_scope.

(* ===================================================================== *)
(** * Python runtime values                                               *)
(* ===================================================================== *)

(** ** binary64 *)

Module Float64.

Abbreviation float64 := spec_float.

Definition prec : Z := 53.
Definition emax : Z := 1024.

Definition mul : float64 -> float64 -> float64 := SFmul prec emax.
Definition add : float64 -> float64 -> float64 := SFadd prec emax.

(** Python's [a >= b] on floats: false as soon as one side is NaN. *)
Definition geb (a b : float64) : bool := SFleb b a.

(** Nearest binary64 to the integer [n] (ties to even); an infinity when
    [n] is out of range. *)
Definition of_Z (n : Z) : float64 := binary_normalize prec emax n 0 false.

(** Nearest binary64 to [(-1)^neg * m * 10^e], in one rounding: the
    value of a decimal literal. *)
Definition of_decimal (neg : bool) (m e : Z) : float64 :=
  match m with
  | Zpos p =>
      if 0 <=? e
      then binary_round prec emax neg (p * Z.to_pos (10 ^ e)) 0
      else SFdiv prec emax (S754_finite neg p 0)
                           (S754_finite false (Z.to_pos (10 ^ (- e))) 0)
  | _ => S754_zero neg
  end.

Definition zero64 : float64 := S754_zero false.
Definition one64 : float64 := of_Z 1.

Definition is_nan (f : float64) : bool :=
  match f with S754_nan => true | _ => false end.

End Float64.
Export Float64.

(** ** Exceptions and results *)

(** The exceptions below are all subclasses of [Exception], the class an
    [except Exception] clause catches. *)

Inductive exn : Type :=
| TypeError
| ValueError
| OverflowError
| AttributeError
| NameError
| FileNotFoundError
| EOFError
| SdkError (name : string).   (* any exception raised inside an SDK call *)

Inductive result (A : Type) : Type :=
| Ok (a : A)
| Raise (e : exn).
Arguments Ok {A} a.
Arguments Raise {A} e.

(** ** JSON values, as [json.loads] builds them *)

(** A dict keeps its keys in insertion order; [json.loads] never builds a
    dict with a repeated key, and the floats it builds are binary64
    values in canonical form ([valid_binary prec emax]). *)
Inductive json : Type :=
| JNull
| JBool (b : bool)
| JInt (n : Z)
| JFloat (f : float64)
| JStr (s : string)
| JList (l : list json)
| JDict (d : list (string * json)).

(** [bool(v)]: the truth value used by [or] and [if]. *)
Definition truthy (v : json) : bool :=
  match v with
  | JNull => false
  | JBool b => b
  | JInt n => negb (n =? 0)
  | JFloat (S754_zero _) => false
  | JFloat _ => true
  | JStr s => negb (String.eqb s EmptyString)
  | JList l => match l with [] => false | _ => true end
  | JDict d => match d with [] => false | _ => true end
  end.

(** [a or b] *)
Definition py_or (a b : json) : json := if truthy a then a else b.

Fixpoint assoc (key : string) (d : list (string * json)) : option json :=
  match d with
  | [] => None
  | (k, v) :: d' => if String.eqb k key then Some v else assoc key d'
  end.

(** [obj.get(key, dflt)]: only a dict has the attribute [get]. *)
Definition py_get (obj : json) (key : string) (dflt : json) : result json :=
  match obj with
  | JDict d => Ok (default dflt (assoc key d))
  | _ => Raise AttributeError
  end.

(** ** [float(v)] *)

Module PyFloat.

Definition code (c : ascii) : N := N_of_ascii c.

Definition is_digit (c : ascii) : bool :=
  ((48 <=? code c) && (code c <=? 57))%N.

Definition digit_value (c : ascii) : Z := Z.of_N (code c - 48).

(** Whitespace that [float] strips from both ends of a [str]: the ASCII
    blanks, and U+0085 and U+00A0. *)
Definition is_space (c : ascii) : bool :=
  (((9 <=? code c) && (code c <=? 13)) || (code c =? 32)
   || (code c =? 133) || (code c =? 160))%N.

Definition lower (c : ascii) : ascii :=
  if ((65 <=? code c) && (code c <=? 90))%N then ascii_of_N (code c + 32) else c.

Fixpoint drop_space (s : list ascii) : list ascii :=
  match s with
  | c :: s' => if is_space c then drop_space s' else s
  | [] => []
  end.

Definition strip (s : list ascii) : list ascii :=
  rev (drop_space (rev (drop_space s))).

(** PEP 515: an underscore is dropped when it stands between two digits
    and refused anywhere else.  [prev] is the previous character. *)
Fixpoint drop_underscores (prev : ascii) (s : list ascii) : option (list ascii) :=
  match s with
  | [] => if Ascii.eqb prev "_" then None else Some []
  | c :: s' =>
      if Ascii.eqb c "_" then
        (if is_digit prev then drop_underscores c s' else None)
      else if Ascii.eqb prev "_" && negb (is_digit c) then None
      else cons c <$> drop_underscores c s'
  end.

Definition take_sign (s : list ascii) : bool * list ascii :=
  match s with
  | c :: r => if Ascii.eqb c "-" then (true, r)
              else if Ascii.eqb c "+" then (false, r) else (false, s)
  | [] => (false, s)
  end.

Fixpoint take_digits (s : list ascii) : list ascii * list ascii :=
  match s with
  | c :: r => if is_digit c
              then let '(ds, rest) := take_digits r in (c :: ds, rest)
              else ([], s)
  | [] => ([], [])
  end.

Definition digits_to_Z (ds : list ascii) : Z :=
  fold_left (fun acc d => 10 * acc + digit_value d) ds 0.

(** The exponent part: nothing, or [e]/[E], an optional sign and at
    least one digit, up to the end of the text. *)
Definition parse_exponent (s : list ascii) : option Z :=
  match s with
  | [] => Some 0
  | c :: r =>
      if Ascii.eqb (lower c) "e" then
        let '(neg, r1) := take_sign r in
        let '(ds, rest) := take_digits r1 in
        match ds, rest with
        | _ :: _, [] => Some (if neg then - digits_to_Z ds else digits_to_Z ds)
        | _, _ => None
        end
      else None
  end.

(** A decimal literal: sign, digits, optional point and digits (one digit
    at least overall), optional exponent. *)
Definition parse_decimal (s : list ascii) : option float64 :=
  let '(neg, s1) := take_sign s in
  let '(ip, s2) := take_digits s1 in
  let '(fp, s3) :=
    match s2 with
    | c :: r => if Ascii.eqb c "." then take_digits r else ([], s2)
    | [] => ([], s2)
    end in
  match (ip ++ fp)%list with
  | [] => None
  | ds => e ← parse_exponent s3;
          Some (of_decimal neg (digits_to_Z ds) (e - Z.of_nat (length fp)))
  end.

(** [inf], [infinity] and [nan], in any letter case, with an optional sign. *)
Definition parse_inf_nan (s : list ascii) : option float64 :=
  let '(neg, s1) := take_sign s in
  let w := string_of_list_ascii (map lower s1) in
  if String.eqb w "inf" || String.eqb w "infinity" then Some (S754_infinity neg)
  else if String.eqb w "nan" then Some S754_nan
  else None.

Definition of_str (s : string) : option float64 :=
  match strip (list_ascii_of_string s) with
  | [] => None
  | t => u ← drop_underscores "000" t;
         match parse_decimal u with
         | Some f => Some f
         | None => parse_inf_nan u
         end
  end.

End PyFloat.

(** [float(v)]: [TypeError] for a value with no float conversion,
    [ValueError] for a text that is not a number, [OverflowError] for an
    int beyond the binary64 range. *)
Definition py_float (v : json) : result float64 :=
  match v with
  | JNull => Raise TypeError
  | JBool b => Ok (if b then one64 else zero64)
  | JInt n =>
      match of_Z n with
      | S754_infinity _ => Raise OverflowError
      | f => Ok f
      end
  | JFloat f => Ok f
  | JStr s =>
      match PyFloat.of_str s with
      | Some f => Ok f
      | None => Raise ValueError
      end
  | JList _ | JDict _ => Raise TypeError
  end.

(** ** What the Python runtime supplies and the repository does not *)

(** [float_repr] is [float.__repr__] on a finite float;
    [bytes_decode_utf8] is [bytes.decode("utf-8")] and [json_loads] is
    [json.loads], both answering [None] where Python raises. *)
Class Runtime : Type := {
  float_repr : float64 -> string;
  bytes_decode_utf8 : list Byte.byte -> option string;
  json_loads : string -> option json;
}.

(** ** Text of a value *)

Module PyText.

Definition dquote : string := String "034" EmptyString.
Definition backslash : ascii := "092".

Definition of_Z (n : Z) : string := NilZero.string_of_int (Z.to_int n).

Definition hex_digit (n : N) : ascii :=
  if (n <? 10)%N then ascii_of_N (48 + n) else ascii_of_N (87 + n).

(** One character inside a JSON string, [ensure_ascii] being on. *)
Definition escape_char (c : ascii) : string :=
  let n := N_of_ascii c in
  if (n =? 34)%N then String backslash dquote
  else if (n =? 92)%N then String backslash (String backslash EmptyString)
  else if (n =? 10)%N then String backslash "n"
  else if (n =? 13)%N then String backslash "r"
  else if (n =? 9)%N then String backslash "t"
  else if (n =? 8)%N then String backslash "b"
  else if (n =? 12)%N then String backslash "f"
  else if ((32 <=? n) && (n <=? 126))%N then String c EmptyString
  else String backslash "u00"
       ++ String (hex_digit (n / 16)) (String (hex_digit (n mod 16)) EmptyString).

Fixpoint escape (s : string) : string :=
  match s with
  | EmptyString => EmptyString
  | String c s' => escape_char c ++ escape s'
  end.

Definition quoted (s : string) : string := dquote ++ escape s ++ dquote.

Fixpoint join (sep : string) (l : list string) : string :=
  match l with
  | [] => EmptyString
  | [x] => x
  | x :: l' => x ++ sep ++ join sep l'
  end.

(** [repr(s)] of a [str]: single quotes unless the text holds a single
    quote and no double quote; the quote in use, the backslash and the
    characters that are not printable are escaped. *)
Definition is_printable (n : N) : bool :=
  (((32 <=? n) && (n <=? 126)) || ((161 <=? n) && negb (n =? 173)))%N.

Definition repr_char (quote : ascii) (c : ascii) : string :=
  let n := N_of_ascii c in
  if Ascii.eqb c quote || (n =? 92)%N then String backslash (String c EmptyString)
  else if (n =? 9)%N then String backslash "t"
  else if (n =? 10)%N then String backslash "n"
  else if (n =? 13)%N then String backslash "r"
  else if is_printable n then String c EmptyString
  else String backslash "x"
       ++ String (hex_digit (n / 16)) (String (hex_digit (n mod 16)) EmptyString).

Fixpoint repr_body (quote : ascii) (s : string) : string :=
  match s with
  | EmptyString => EmptyString
  | String c s' => repr_char quote c ++ repr_body quote s'
  end.

Fixpoint contains (c : ascii) (s : string) : bool :=
  match s with
  | EmptyString => false
  | String c' s' => Ascii.eqb c c' || contains c s'
  end.

Definition repr_str (s : string) : string :=
  let quote : ascii :=
    if contains "039" s && negb (contains "034" s) then "034"%char else "039"%char in
  String quote (repr_body quote s) ++ String quote EmptyString.

Section WithRuntime.
Context {R : Runtime}.

Definition json_float (f : float64) : string :=
  match f with
  | S754_nan => "NaN"
  | S754_infinity false => "Infinity"
  | S754_infinity true => "-Infinity"
  | _ => float_repr f
  end.

(** [json.dumps(v)] with its default arguments. *)
Fixpoint json_dumps (v : json) : string :=
  match v with
  | JNull => "null"
  | JBool true => "true"
  | JBool false => "false"
  | JInt n => of_Z n
  | JFloat f => json_float f
  | JStr s => quoted s
  | JList l => "[" ++ join ", " (map json_dumps l) ++ "]"
  | JDict d =>
      "{" ++ join ", " (map (fun kv => quoted (fst kv) ++ ": " ++ json_dumps (snd kv)) d)
          ++ "}"
  end.

(** [repr(f)] of a float. *)
Definition py_float_repr (f : float64) : string :=
  match f with
  | S754_nan => "nan"
  | S754_infinity false => "inf"
  | S754_infinity true => "-inf"
  | _ => float_repr f
  end.

(** [repr(v)] *)
Fixpoint py_repr (v : json) : string :=
  match v with
  | JNull => "None"
  | JBool true => "True"
  | JBool false => "False"
  | JInt n => of_Z n
  | JFloat f => py_float_repr f
  | JStr s => repr_str s
  | JList l => "[" ++ join ", " (map py_repr l) ++ "]"
  | JDict d =>
      "{" ++ join ", " (map (fun kv => repr_str (fst kv) ++ ": " ++ py_repr (snd kv)) d)
          ++ "}"
  end.

(** [str(v)], which an f-string applies to the value it interpolates: the
    text itself for a [str], [repr(v)] for the other values. *)
Definition py_str (v : json) : string :=
  match v with
  | JStr s => s
  | _ => py_repr v
  end.

End WithRuntime.
End PyText.

(* ===================================================================== *)
(** * Effects                                                             *)
(* ===================================================================== *)

(** A computation reads the trace so far, extends it, and returns or
    raises. *)
Definition M (E A : Type) : Type := list E -> result A * list E.

Section Monad.
Context {E : Type}.

Definition ret {A} (a : A) : M E A := fun t => (Ok a, t).

Definition bind {A B} (m : M E A) (k : A -> M E B) : M E B :=
  fun t => match m t with
           | (Ok a, t') => k a t'
           | (Raise e, t') => (Raise e, t')
           end.

Definition lift {A} (r : result A) : M E A := fun t => (r, t).

(** Record one effect. *)
Definition emit (a : E) : M E unit := fun t => (Ok tt, (t ++ [a])%list).

(** Record a call to the outside and take its outcome from [oracle],
    which sees the trace before the call. *)
Definition call {A} (a : E) (oracle : list E -> result A) : M E A :=
  fun t => (oracle t, (t ++ [a])%list).

(** [try: body  except Exception as e: handler e] *)
Definition try_except {A} (body : M E A) (handler : exn -> M E A) : M E A :=
  fun t => match body t with
           | (Ok a, t') => (Ok a, t')
           | (Raise e, t') => handler e t'
           end.

(** [for x in xs: body x] *)
Fixpoint for_each {A} (xs : list A) (body : A -> M E unit) : M E unit :=
  match xs with
  | [] => ret tt
  | x :: xs' => bind (body x) (fun _ => for_each xs' body)
  end.

End Monad.

Notation "'let*' x := m 'in' k" := (bind m (fun x => k))
  (at level 10, x binder, m at level 100, k at level 200).
Notation "m >>> k" := (bind m (fun _ => k))
  (at level 80, right associativity).

(* ===================================================================== *)
(** * Data model                                                          *)
(* ===================================================================== *)

(** The dict built by [EmissionProcessor.process], field by field. *)
Record emission_record : Type := {
  vehicle_id : json;
  timestep_time : json;
  vehicle_CO : float64;
  vehicle_CO2 : float64;
  vehicle_NOx : float64;
  vehicle_PMx : float64;
  vehicle_speed : float64;
  co2_status : string;
  co_status : string;
  nox_status : string;
  emission_score : float64;
}.

(** The record as the dict it is, keys in the order of the source. *)
Definition record_to_dict (r : emission_record) : json :=
  JDict [ ("vehicle_id", vehicle_id r);
          ("timestep_time", timestep_time r);
          ("vehicle_CO", JFloat (vehicle_CO r));
          ("vehicle_CO2", JFloat (vehicle_CO2 r));
          ("vehicle_NOx", JFloat (vehicle_NOx r));
          ("vehicle_PMx", JFloat (vehicle_PMx r));
          ("vehicle_speed", JFloat (vehicle_speed r));
          ("co2_status", JStr (co2_status r));
          ("co_status", JStr (co_status r));
          ("nox_status", JStr (nox_status r));
          ("emission_score", JFloat (emission_score r)) ].

(** Effects of the Greengrass component: one constructor per logging call
    of the two modules, and one per sink call. *)
Inductive action : Type :=
| LogProcessed (r : emission_record)
| LogReceivedRaw (event : json)
| LogPublishing (topic payload : string)
| LogFirehoseSent (vehicle : json)
| LogFirehoseFailed (e : exn)
| LogFirehoseSkipped
| LogHandlerError (e : exn)
| LogMessageReceived (topic payload : string)
| LogDecodeFailed
| LogFirehoseInit
| LogFirehoseInitFailed (e : exn)
| MqttPublish (topic payload : string) (qos : Z)
| FirehosePutRecord (stream data : string).

(* ===================================================================== *)
(** * process_emission.py                                                 *)
(* ===================================================================== *)

Module process_emission.

Record EmissionProcessor : Type := {
  co2_warn_threshold : float64;
  co_warn_threshold : float64;
  nox_warn_threshold : float64;
}.

(** [EmissionProcessor()] with the default arguments of [__init__]. *)
Definition default_processor : EmissionProcessor :=
  {| co2_warn_threshold := of_decimal false 80000 (-1);
     co_warn_threshold := of_decimal false 2000 (-1);
     nox_warn_threshold := of_decimal false 50 (-1) |}.

Definition _safe_float (value : json) : result float64 :=
  match py_float value with
  | Ok f => Ok f
  | Raise TypeError | Raise ValueError => Ok (of_decimal false 0 (-1))
  | Raise e => Raise e
  end.

Definition process (self : EmissionProcessor) (event : json) : M action emission_record :=
  let* timestep := lift (py_get event "timestep_time" JNull) in
  let* vid := lift (py_get event "vehicle_id" JNull) in
  let vehicle_id := py_or vid (JStr "unknown") in
  let* v_co := lift (py_get event "vehicle_CO" JNull) in
  let* co := lift (_safe_float v_co) in
  let* v_co2 := lift (py_get event "vehicle_CO2" JNull) in
  let* co2 := lift (_safe_float v_co2) in
  let* v_nox := lift (py_get event "vehicle_NOx" JNull) in
  let* nox := lift (_safe_float v_nox) in
  let* v_pmx := lift (py_get event "vehicle_PMx" JNull) in
  let* pmx := lift (_safe_float v_pmx) in
  let* v_speed := lift (py_get event "vehicle_speed" JNull) in
  let* speed := lift (_safe_float v_speed) in
  let co2_status := if geb co2 (co2_warn_threshold self) then "HIGH" else "OK" in
  let co_status := if geb co (co_warn_threshold self) then "HIGH" else "OK" in
  let nox_status := if geb nox (nox_warn_threshold self) then "HIGH" else "OK" in
  let emission_score :=
    add (add (add (mul co (of_decimal false 3 (-1)))
                  (mul co2 (of_decimal false 5 (-4))))
             (mul nox (of_decimal false 10 (-1))))
        (mul pmx (of_decimal false 50 (-1))) in
  let result :=
    {| vehicle_id := vehicle_id;
       timestep_time := timestep;
       vehicle_CO := co;
       vehicle_CO2 := co2;
       vehicle_NOx := nox;
       vehicle_PMx := pmx;
       vehicle_speed := speed;
       co2_status := co2_status;
       co_status := co_status;
       nox_status := nox_status;
       emission_score := emission_score |} in
  emit (LogProcessed result) >>>
  ret result.

Definition _processor : EmissionProcessor := default_processor.

Definition lambda_handler (event : json) : M action emission_record :=
  process _processor event.

End process_emission.

(* ===================================================================== *)
(** * main-mqtt.py                                                        *)
(* ===================================================================== *)

Module main_mqtt.

Definition INPUT_TOPIC : string := "vehicle/emission/data".
Definition OUTPUT_TOPIC_PREFIX : string := "iot/Vehicle_".
Definition FIREHOSE_STREAM_NAME : string := "lab4-vehicle-emissions-stream".
Definition AWS_REGION : string := "us-west-2".

(** The two sink clients, seen from the handler: what a call answers,
    given the trace before it.  [publish] returns a bool or raises;
    [put_record] returns or raises. *)
Definition mqtt_client : Type := list action -> string -> string -> Z -> result bool.
Definition firehose_client : Type := list action -> string -> string -> result unit.

(** The name [boto3] as the module sees it: [None] when the name is not
    bound, else the outcome of [boto3.client(service, region_name=...)]. *)
Definition boto3_binding : Type := option (string -> string -> result firehose_client).

(** [main-mqtt.py] has no [import boto3]. *)
Definition module_boto3 : boto3_binding := None.

Definition boto3_client (boto3 : boto3_binding) (service region : string)
  : result firehose_client :=
  match boto3 with
  | None => Raise NameError
  | Some client => client service region
  end.

Definition configure_firehose_client (boto3 : boto3_binding)
  : M action (option firehose_client) :=
  try_except
    (emit LogFirehoseInit >>>
     let* firehose := lift (boto3_client boto3 "firehose" AWS_REGION) in
     ret (Some firehose))
    (fun e => emit (LogFirehoseInitFailed e) >>> ret None).

Record message : Type := {
  payload : list Byte.byte;
  topic : string;
}.

Section WithRuntime.
Context {R : Runtime}.

Definition handle_vehicle_message (mqtt : mqtt_client)
    (firehose : option firehose_client) (event : json) : M action unit :=
  try_except
    (emit (LogReceivedRaw event) >>>
     let* payload := lift (py_get event "data" event) in
     let* result := process_emission.lambda_handler payload in
     let* vehicle_id :=
       if truthy (vehicle_id result) then ret (vehicle_id result)
       else let* fallback := lift (py_get payload "vehicle_id" JNull) in
            ret (py_or fallback (JStr "unknown")) in
     let output_topic := OUTPUT_TOPIC_PREFIX ++ PyText.py_str vehicle_id in
     let result_json := PyText.json_dumps (record_to_dict result) in
     emit (LogPublishing output_topic result_json) >>>
     let* _ := call (MqttPublish output_topic result_json 0)
                    (fun t => mqtt t output_topic result_json 0) in
     match firehose with
     | Some client =>
         try_except
           (let data := result_json ++ String "010" EmptyString in
            call (FirehosePutRecord FIREHOSE_STREAM_NAME data)
                 (fun t => client t FIREHOSE_STREAM_NAME data) >>>
            emit (LogFirehoseSent vehicle_id))
           (fun fe => emit (LogFirehoseFailed fe))
     | None => emit LogFirehoseSkipped
     end)
    (fun e => emit (LogHandlerError e)).

Definition on_message_callback (mqtt : mqtt_client)
    (firehose : option firehose_client) (msg : message) : M action unit :=
  let* decoded :=
    try_except
      (let* payload_str :=
         lift (match bytes_decode_utf8 (payload msg) with
               | Some s => Ok s
               | None => Raise ValueError
               end) in
       emit (LogMessageReceived (topic msg) payload_str) >>>
       let* event :=
         lift (match json_loads payload_str with
               | Some v => Ok v
               | None => Raise ValueError
               end) in
       ret (Some event))
      (fun e => emit LogDecodeFailed >>> ret None) in
  match decoded with
  | None => ret tt
  | Some event => handle_vehicle_message mqtt firehose event
  end.

(** The subscription made by [main]: the SDK calls the registered callback
    once per inbound message, one message after the other. *)
Definition subscription (mqtt : mqtt_client) (firehose : option firehose_client)
    (inbound : list message) : M action unit :=
  for_each inbound (on_message_callback mqtt firehose).

(** [main], from the Firehose set-up on: the client it builds is the one
    every callback receives. *)
Definition main (mqtt : mqtt_client) (inbound : list message) : M action unit :=
  let* firehose := configure_firehose_client module_boto3 in
  subscription mqtt firehose inbound.

End WithRuntime.
End main_mqtt.

(* ===================================================================== *)
(** * The fleet publishers                                                *)
(* ===================================================================== *)

(** ** [str.strip()] and [str.lower()] *)

Module PyStr.

Definition is_space (c : ascii) : bool :=
  let n := N_of_ascii c in
  (((9 <=? n) && (n <=? 13)) || ((28 <=? n) && (n <=? 32))
   || (n =? 133) || (n =? 160))%N.

Fixpoint lstrip (s : list ascii) : list ascii :=
  match s with
  | c :: s' => if is_space c then lstrip s' else s
  | [] => []
  end.

Definition strip (s : string) : string :=
  string_of_list_ascii (rev (lstrip (rev (lstrip (list_ascii_of_string s))))).

Definition lower_char (c : ascii) : ascii :=
  let n := N_of_ascii c in
  if (((65 <=? n) && (n <=? 90))
      || ((192 <=? n) && (n <=? 222) && negb (n =? 215)))%N
  then ascii_of_N (n + 32) else c.

Fixpoint lower (s : string) : string :=
  match s with
  | EmptyString => EmptyString
  | String c s' => String (lower_char c) (lower s')
  end.

End PyStr.

(** ** What the publishers see of the machine *)

(** A CSV row is its columns in file order; a dataset is its rows in file
    order, as [pandas.read_csv] and [DataFrame.iterrows] give them. *)
Definition row : Type := list (string * json).
Definition dataframe : Type := list row.

(** The files at hand: the CSV datasets by path. *)
Definition filesystem : Type := gmap string dataframe.

Definition path_exists (fs : filesystem) (path : string) : bool :=
  bool_decide (is_Some (fs !! path)).

Definition read_csv (fs : filesystem) (path : string) : result dataframe :=
  match fs !! path with
  | Some df => Ok df
  | None => Raise FileNotFoundError
  end.

(** Lines printed by the two publishers. *)
Inductive stdout_line : Type :=
| WarningNotFound (path : string)
| PublishingFrom (device payload : string)
| Prompt
| InvalidKey
| AllDisconnected
| WarnCsvNotFound (device path : string)
| InfoPublishing (device path : string)
| PublishLine (device topic payload : string)
| FinishedAllCars
| Exiting
| InvalidInput.

Inductive emu_action : Type :=
| Stdout (line : stdout_line)
| PublishAsync (device topic payload : string) (qos : Z)
| IotDataPublish (topic : string) (qos : Z) (payload : string)
| Disconnect (device : string)
| Sleep (seconds : float64).

(** [range(lo, hi)] *)
Definition range (lo hi : Z) : list Z :=
  map (fun i => lo + Z.of_nat i) (seq 0 (Z.to_nat (hi - lo))).

(* ===================================================================== *)
(** * vehicle-data/lab4_emulator_client.py                                *)
(* ===================================================================== *)

Module emulator_mqtt.

Definition device_st : Z := 1.
Definition device_end : Z := 11.
Definition VEHICLE_DATA_DIR : string := "vehicle-data".

(** [data_path_template.format(i)] *)
Definition data_path (i : Z) : string :=
  VEHICLE_DATA_DIR ++ "/vehicle" ++ PyText.of_Z i ++ ".csv".

(** The SDK connection of one device: what [publishAsync] answers and
    what [disconnect] answers, given the trace before the call. *)
Record sdk_client : Type := {
  publishAsync : list emu_action -> string -> string -> Z -> result unit;
  disconnect : list emu_action -> result unit;
}.

Record MQTTClient : Type := {
  numeric_id : Z;
  device_id : string;
  client : sdk_client;
}.

(** [MQTTClient(numeric_id, cert, key)], the connection being [sdk]. *)
Definition MQTTClient_init (numeric_id : Z) (sdk : sdk_client) : MQTTClient :=
  {| numeric_id := numeric_id;
     device_id := "lab4-car-" ++ PyText.of_Z numeric_id;
     client := sdk |}.

Definition default_topic : string := "vehicle/emission/data".

Section WithRuntime.
Context {R : Runtime}.

(** The body of [for index, row in df.iterrows()]. *)
Definition publish_row (self : MQTTClient) (topic : string) (r : row)
  : M emu_action unit :=
  let payload := PyText.json_dumps (JDict r) in
  emit (Stdout (PublishingFrom (device_id self) payload)) >>>
  call (PublishAsync (device_id self) topic payload 0)
       (fun t => publishAsync (client self) t topic payload 0) >>>
  emit (Sleep (of_decimal false 2 (-1))).

Definition publish (fs : filesystem) (self : MQTTClient) (topic : string)
  : M emu_action unit :=
  let csv_path := data_path (numeric_id self) in
  if negb (path_exists fs csv_path) then lift (Raise FileNotFoundError)
  else
    let* df := lift (read_csv fs csv_path) in
    for_each df (publish_row self topic).

(** The loading loop of the script: every dataset that exists is read,
    a missing one is reported and passed over. *)
Fixpoint load_data (fs : filesystem) (ids : list Z) (data : list dataframe)
  : M emu_action (list dataframe) :=
  match ids with
  | [] => ret data
  | i :: ids' =>
      let csv_file := data_path i in
      if path_exists fs csv_file then
        let* a := lift (read_csv fs csv_file) in
        load_data fs ids' (data ++ [a])%list
      else
        emit (Stdout (WarningNotFound csv_file)) >>>
        load_data fs ids' data
  end.

(** The [while True] loop of the script; [input()] reads the next line of
    [stdin] and raises [EOFError] at its end. *)
Fixpoint command_loop (fs : filesystem) (clients : list MQTTClient)
    (stdin : list string) : M emu_action unit :=
  emit (Stdout Prompt) >>>
  match stdin with
  | [] => lift (Raise EOFError)
  | line :: rest =>
      let x := PyStr.strip line in
      if String.eqb x "s" then
        for_each clients (fun c => publish fs c default_topic) >>>
        emit (Sleep (of_Z 2)) >>>
        command_loop fs clients rest
      else if String.eqb x "d" then
        for_each clients
          (fun c => call (Disconnect (device_id c))
                         (fun t => disconnect (client c) t)) >>>
        emit (Stdout AllDisconnected)
      else
        emit (Stdout InvalidKey) >>>
        emit (Sleep (of_Z 2)) >>>
        command_loop fs clients rest
  end.

End WithRuntime.
End emulator_mqtt.

(* ===================================================================== *)
(** * lab4_emulator_client.py                                             *)
(* ===================================================================== *)

Module emulator_https.

Definition TOPIC : string := "vehicle/emission/data".
Definition CAR_ID_START : Z := 1.
Definition CAR_ID_END : Z := 11.
Definition VEHICLE_DATA_DIR : string := "vehicle-data".

(** The IoT data-plane client: what [publish] answers, given the trace
    before the call. *)
Definition iot_data_client : Type :=
  list emu_action -> string -> Z -> string -> result unit.

Section WithRuntime.
Context {R : Runtime}.

(** The body of [for index, row in df.iterrows()]. *)
Definition publish_row (iot_data : iot_data_client) (device_id : string) (r : row)
  : M emu_action unit :=
  let payload := JDict [("device_id", JStr device_id); ("data", JDict r)] in
  let payload_str := PyText.json_dumps payload in
  emit (Stdout (PublishLine device_id TOPIC payload_str)) >>>
  call (IotDataPublish TOPIC 0 payload_str)
       (fun t => iot_data t TOPIC 0 payload_str) >>>
  emit (Sleep (of_decimal false 2 (-1))).

Definition publish_car_data (fs : filesystem) (iot_data : iot_data_client)
    (car_id : Z) : M emu_action unit :=
  let device_id := "lab4-car-" ++ PyText.of_Z car_id in
  let csv_path := VEHICLE_DATA_DIR ++ "/vehicle" ++ PyText.of_Z car_id ++ ".csv" in
  if negb (path_exists fs csv_path) then
    emit (Stdout (WarnCsvNotFound device_id csv_path))
  else
    let* df := lift (read_csv fs csv_path) in
    emit (Stdout (InfoPublishing device_id csv_path)) >>>
    for_each df (publish_row iot_data device_id).

(** The [while True] loop of [main]; [input(prompt)] prints the prompt,
    reads the next line of [stdin] and raises [EOFError] at its end. *)
Fixpoint main_loop (fs : filesystem) (iot_data : iot_data_client)
    (stdin : list string) : M emu_action unit :=
  emit (Stdout Prompt) >>>
  match stdin with
  | [] => lift (Raise EOFError)
  | line :: rest =>
      let cmd := PyStr.lower (PyStr.strip line) in
      if String.eqb cmd "s" then
        for_each (range CAR_ID_START CAR_ID_END) (publish_car_data fs iot_data) >>>
        emit (Stdout FinishedAllCars) >>>
        emit (Sleep (of_Z 1)) >>>
        main_loop fs iot_data rest
      else if String.eqb cmd "d" then
        emit (Stdout Exiting)
      else
        emit (Stdout InvalidInput) >>>
        emit (Sleep (of_Z 1)) >>>
        main_loop fs iot_data rest
  end.

End WithRuntime.
End emulator_https.

(* ===================================================================== *)
(** * Definitions that follow the specification's words                   *)
(* ===================================================================== *)

(** The composite score as the specification writes it,
    [0.3*CO + 0.0005*CO2 + 1.0*NOx + 5.0*PMx], in float arithmetic. *)
Definition spec_score (CO CO2 NOx PMx : float64) : float64 :=
  add (add (add (mul (of_decimal false 3 (-1)) CO)
                (mul (of_decimal false 5 (-4)) CO2))
           (mul (of_decimal false 10 (-1)) NOx))
      (mul (of_decimal false 50 (-1)) PMx).

(** [d.get(key)] on a dict. *)
Definition dict_get (d : list (string * json)) (key : string) : json :=
  default JNull (assoc key d).

(** The reading the evaluator takes from a field of the event. *)
Definition coerced (d : list (string * json)) (key : string) : result float64 :=
  process_emission._safe_float (dict_get d key).

(** Counting in a trace: records produced by the evaluator, attempts on
    the live topic, attempts on the durable stream. *)
Definition is_record (a : action) : bool :=
  match a with LogProcessed _ => true | _ => false end.
Definition is_publish (a : action) : bool :=
  match a with MqttPublish _ _ _ => true | _ => false end.
Definition is_put_record (a : action) : bool :=
  match a with FirehosePutRecord _ _ => true | _ => false end.

Definition count (p : action -> bool) (t : list action) : nat :=
  length (filter (fun a => p a = true) t).

(** The event of the specification's end-to-end scenario, and the
    processed record the specification gives for it (score 21.5). *)
Definition scenario_event : json :=
  JDict [ ("vehicle_id", JStr "car-3"); ("vehicle_CO2", JStr "9000");
          ("vehicle_CO", JStr "50"); ("vehicle_NOx", JStr "2") ].

Definition scenario_record : emission_record :=
  {| vehicle_id := JStr "car-3";
     timestep_time := JNull;
     vehicle_CO := of_Z 50;
     vehicle_CO2 := of_Z 9000;
     vehicle_NOx := of_Z 2;
     vehicle_PMx := zero64;
     vehicle_speed := zero64;
     co2_status := "HIGH";
     co_status := "OK";
     nox_status := "OK";
     emission_score := of_decimal false 215 (-1) |}.

(** An event whose CO2 reading sits on the default threshold. *)
Definition boundary_event : list (string * json) :=
  [ ("vehicle_CO2", JFloat (of_Z 8000)); ("vehicle_CO", JStr "199.999") ].

(** What the specification calls the live output topic of a record,
    [<fixed-prefix><record.identifier>], and its serialized form. *)
Definition live_topic {R : Runtime} (r : emission_record) : string :=
  main_mqtt.OUTPUT_TOPIC_PREFIX ++ PyText.py_str (vehicle_id r).

Definition serialized {R : Runtime} (r : emission_record) : string :=
  PyText.json_dumps (record_to_dict r).

Definition newline : string := String "010" EmptyString.

(** What the specification appends to the durable stream: the
    serialized record, newline-terminated. *)
Definition stream_record {R : Runtime} (r : emission_record) : string :=
  serialized r ++ newline.

(** What [json.loads(payload.decode("utf-8"))] gives for a message. *)
Definition decode {R : Runtime} (msg : main_mqtt.message) : option json :=
  bytes_decode_utf8 (main_mqtt.payload msg) ≫= json_loads.

(** The payloads a publisher hands to its transport, in order. *)
Definition sent_payloads (t : list emu_action) : list string :=
  omap (fun a => match a with
                 | PublishAsync _ _ p _ => Some p
                 | IotDataPublish _ _ p => Some p
                 | _ => None
                 end) t.

(** A trace without what is printed: transport calls and sleeps. *)
Definition is_stdout (a : emu_action) : bool :=
  match a with Stdout _ => true | _ => false end.

Definition wire (t : list emu_action) : list emu_action :=
  filter (fun a => is_stdout a = false) t.

(** The message that carries a row: the row alone for the MQTT
    publisher, the row under ["data"] next to the device for the HTTPS
    publisher. *)
Definition mqtt_payload {R : Runtime} (r : row) : string :=
  PyText.json_dumps (JDict r).

Definition https_payload {R : Runtime} (device_id : string) (r : row) : string :=
  PyText.json_dumps (JDict [("device_id", JStr device_id); ("data", JDict r)]).

(** The pacing delay between two rows, 0.2 s. *)
Definition inter_row_delay : float64 := of_decimal false 2 (-1).

(** ** A runtime for closed examples *)

Module Example.

(** Drop the zeros that end the decimal [n / 10^k]. *)
Fixpoint reduce (fuel : nat) (n k : Z) : Z * Z :=
  match fuel with
  | O => (n, k)
  | S fuel' =>
      if (0 <? k) && (n mod 10 =? 0) then reduce fuel' (n / 10) (k - 1) else (n, k)
  end.

Fixpoint zeros (n : nat) : string :=
  match n with
  | O => EmptyString
  | S n' => String "0" (zeros n')
  end.

(** [s] with zeros in front, up to [width] characters. *)
Definition pad (width : nat) (s : string) : string :=
  zeros (width - String.length s) ++ s.

(** The exact decimal expansion of a finite float; it is what
    [float.__repr__] prints for floats such as 21.5 or 9000.0, whose
    shortest decimal is exact. *)
Definition exact_decimal (f : float64) : string :=
  match f with
  | S754_zero s => (if s then "-0.0" else "0.0")
  | S754_finite s m e =>
      let sign := if s then "-" else EmptyString in
      if 0 <=? e then sign ++ PyText.of_Z (Zpos m * 2 ^ e) ++ ".0"
      else
        let '(n, k) := reduce (Z.to_nat (- e)) (Zpos m * 5 ^ (- e)) (- e) in
        if k =? 0 then sign ++ PyText.of_Z n ++ ".0"
        else sign ++ PyText.of_Z (n / 10 ^ k) ++ "."
                  ++ pad (Z.to_nat k) (PyText.of_Z (n mod 10 ^ k))
  | _ => EmptyString
  end.

(** UTF-8 decoding on ASCII payloads; a byte above 127 is refused. *)
Definition decode_ascii (bs : list Byte.byte) : option string :=
  if forallb (fun b => (Byte.to_N b <? 128)%N) bs
  then Some (string_of_list_byte bs) else None.

(** [json.loads] on the five shortest JSON texts; any other text is
    refused. *)
Definition loads_literal (s : string) : option json :=
  if String.eqb s "null" then Some JNull
  else if String.eqb s "true" then Some (JBool true)
  else if String.eqb s "false" then Some (JBool false)
  else if String.eqb s "[]" then Some (JList [])
  else if String.eqb s "{}" then Some (JDict [])
  else None.

Definition runtime : Runtime :=
  {| float_repr := exact_decimal;
     bytes_decode_utf8 := decode_ascii;
     json_loads := loads_literal |}.

(** Sinks that accept every call, and sinks that refuse every call. *)
Definition mqtt_up : main_mqtt.mqtt_client := fun _ _ _ _ => Ok true.
Definition mqtt_down : main_mqtt.mqtt_client :=
  fun _ _ _ _ => Raise (SdkError "publishTimeoutException").
Definition firehose_up : main_mqtt.firehose_client := fun _ _ _ => Ok tt.
Definition firehose_down : main_mqtt.firehose_client :=
  fun _ _ _ => Raise (SdkError "ServiceUnavailableException").

(** Transports that accept every message. *)
Definition sdk_up : emulator_mqtt.sdk_client :=
  {| emulator_mqtt.publishAsync := fun _ _ _ _ => Ok tt;
     emulator_mqtt.disconnect := fun _ => Ok tt |}.
Definition iot_up : emulator_https.iot_data_client := fun _ _ _ _ => Ok tt.

(** A machine on which only car 2 has a dataset, of two rows. *)
Definition car2_rows : dataframe :=
  [ [("timestep_time", JInt 0); ("vehicle_id", JStr "veh1")];
    [("timestep_time", JInt 1); ("vehicle_id", JStr "veh1")] ].

Definition only_car2 : filesystem := {[ "vehicle-data/vehicle2.csv" := car2_rows ]}.

Definition two_cars : list emulator_mqtt.MQTTClient :=
  [ emulator_mqtt.MQTTClient_init 1 sdk_up; emulator_mqtt.MQTTClient_init 2 sdk_up ].

End Example.

(* ===================================================================== *)
(** * The start-up of vehicle-data/lab4_emulator_client.py                *)
(* ===================================================================== *)

Module emulator_mqtt_startup.
Import emulator_mqtt.

(** [certificate_formatter.format(i)] and [key_formatter.format(i)] *)
Definition certificate_path (i : Z) : string :=
  "car_certs/lab4-car-" ++ PyText.of_Z i ++ "/certificate.pem.crt".
Definition key_path (i : Z) : string :=
  "car_certs/lab4-car-" ++ PyText.of_Z i ++ "/private.pem.key".

(** Effects of the start-up: the lines it prints and the connection
    attempts. *)
Inductive init_action : Type :=
| SkippingLine (numeric_id : Z) (cert key : string)
| ConnectingLine (device : string)
| Connect (device : string)
| ConnectedLine (device : string)
| NoClientsLine.

(** How the script ends its start-up: with its clients, or on
    [raise SystemExit(code)], which nothing in the script catches. *)
Inductive startup : Type :=
| Ready (clients : list MQTTClient)
| SystemExit (code : Z).

(** The loop [for numeric_id in range(device_st, device_end)] that builds
    [clients]: [files] holds the paths that exist, [sdk i] is the
    connection the SDK builds for car [i], and [connect i] answers the
    call [client.client.connect()] from the trace before it. *)
Fixpoint init_clients (files : gset string) (sdk : Z -> sdk_client)
    (connect : Z -> list init_action -> result bool)
    (ids : list Z) (clients : list MQTTClient)
  : M init_action (list MQTTClient) :=
  match ids with
  | [] => ret clients
  | numeric_id :: ids' =>
      let cert_path := certificate_path numeric_id in
      let key_path := key_path numeric_id in
      if negb (bool_decide (cert_path ∈ files) && bool_decide (key_path ∈ files)) then
        emit (SkippingLine numeric_id cert_path key_path) >>>
        init_clients files sdk connect ids' clients
      else
        let client := MQTTClient_init numeric_id (sdk numeric_id) in
        emit (ConnectingLine (device_id client)) >>>
        call (Connect (device_id client)) (connect numeric_id) >>>
        emit (ConnectedLine (device_id client)) >>>
        init_clients files sdk connect ids' (clients ++ [client])%list
  end.

(** The start-up up to the command loop. *)
Definition start (files : gset string) (sdk : Z -> sdk_client)
    (connect : Z -> list init_action -> result bool) : M init_action startup :=
  let* clients := init_clients files sdk connect (range device_st device_end) [] in
  match clients with
  | [] => emit NoClientsLine >>> ret (SystemExit 1)
  | _ => ret (Ready clients)
  end.

End emulator_mqtt_startup.

(* ===================================================================== *)
(** * Further definitions used in the statements                          *)
(* ===================================================================== *)

(** The fields [process] coerces to a float, in the order it reads them,
    and all the fields it reads. *)
Definition numeric_fields : list string :=
  ["vehicle_CO"; "vehicle_CO2"; "vehicle_NOx"; "vehicle_PMx"; "vehicle_speed"].

Definition read_fields : list string :=
  "timestep_time" :: "vehicle_id" :: numeric_fields.

(** A text without the newline character. *)
Definition one_line (s : string) : Prop := PyText.contains "010" s = false.

(** Records and live publishes of a trace, in order. *)
Definition outputs (t : list action) : list action :=
  filter (fun a => is_record a || is_publish a = true) t.

(** The record and the live publish that an event leads to: those of
    the value under ["data"], or of the event itself when it has no
    such field; nothing when the evaluator raises. *)
Definition event_outputs {R : Runtime} (event : json) : list action :=
  match py_get event "data" event with
  | Ok payload =>
      match fst (process_emission.lambda_handler payload []) with
      | Ok r => [LogProcessed r; MqttPublish (live_topic r) (serialized r) 0]
      | Raise _ => []
      end
  | Raise _ => []
  end.

(** The dataset of a car, as each publisher looks it up. *)
Definition dataset (fs : filesystem) (i : Z) : option dataframe :=
  fs !! emulator_mqtt.data_path i.

(** The rows of a car that has a dataset, none otherwise. *)
Definition rows_of (fs : filesystem) (i : Z) : dataframe :=
  default [] (dataset fs i).

(** The cars of [ids] that have both credential files. *)
Definition with_credentials (files : gset string) (ids : list Z) : list Z :=
  filter (fun i => emulator_mqtt_startup.certificate_path i ∈ files
                   /\ emulator_mqtt_startup.key_path i ∈ files) ids.

Definition is_connect (a : emulator_mqtt_startup.init_action) : bool :=
  match a with emulator_mqtt_startup.Connect _ => true | _ => false end.

Definition is_disconnect (a : emu_action) : bool :=
  match a with Disconnect _ => true | _ => false end.

(** A connection of the MQTT publisher whose [publishAsync] returns
    whatever it is given. *)
Definition accepts (c : emulator_mqtt.MQTTClient) : Prop :=
  forall t topic payload qos,
    emulator_mqtt.publishAsync (emulator_mqtt.client c) t topic payload qos = Ok tt.



(** ** More data for closed examples *)

Module ExampleFleet.

(** Car 2 has its certificate and its key; car 3 has a certificate only. *)
Definition credentials : gset string :=
  {[ "car_certs/lab4-car-2/certificate.pem.crt";
     "car_certs/lab4-car-2/private.pem.key";
     "car_certs/lab4-car-3/certificate.pem.crt" ]}.

Definition sdk_for (i : Z) : emulator_mqtt.sdk_client := Example.sdk_up.

(** Connections that all succeed, and connections of which that of
    car 2 times out. *)
Definition connect_up (i : Z) (t : list emulator_mqtt_startup.init_action)
  : result bool := Ok true.
Definition connect_down (i : Z) (t : list emulator_mqtt_startup.init_action)
  : result bool :=
  if i =? 2 then Raise (SdkError "connectTimeoutException") else Ok true.

Definition car1 : emulator_mqtt.MQTTClient := emulator_mqtt.MQTTClient_init 1 Example.sdk_up.
Definition car2 : emulator_mqtt.MQTTClient := emulator_mqtt.MQTTClient_init 2 Example.sdk_up.

End ExampleFleet.

(* ===================================================================== *)
(** * Properties of the runtime model                                     *)
(* ===================================================================== *)

Lemma mul_comm (a b : float64) : mul a b = mul b a.
Proof.
  destruct a as [sa|sa| |sa ma ea], b as [sb|sb| |sb mb eb]; cbn;
    rewrite ?(xorb_comm sa sb), ?(Pos.mul_comm ma mb), ?(Z.add_comm ea eb);
    reflexivity.
Qed.

Lemma SFcompare_Eq_sym (a b : float64) :
  SFcompare a b = Some Eq -> SFcompare b a = Some Eq.
Proof.
  destruct a as [sa|sa| |sa ma ea], b as [sb|sb| |sb mb eb]; cbn;
    try destruct sa; try destruct sb; cbn; try congruence.
  all: destruct (Z.compare ea eb) eqn:He; try congruence;
    apply Z.compare_eq in He; subst eb; rewrite Z.compare_refl;
    rewrite Pos.compare_cont_spec; cbn;
    destruct (Pos.compare ma mb) eqn:Hm; cbn; try congruence;
    apply Pos.compare_eq in Hm; subst mb;
    rewrite Pos.compare_cont_spec, Pos.compare_refl; reflexivity.
Qed.

(** Python's [a == b] on floats gives [a >= b]. *)
Lemma geb_of_eqb (a b : float64) : SFeqb a b = true -> geb a b = true.
Proof.
  unfold SFeqb, geb, SFleb. intros H.
  destruct (SFcompare a b) as [[| |]|] eqn:Hc; try discriminate.
  now rewrite (SFcompare_Eq_sym _ _ Hc).
Qed.

Lemma py_or_truthy (a b : json) : truthy b = true -> truthy (py_or a b) = true.
Proof. unfold py_or. now destruct (truthy a) eqn:Ha. Qed.

(* ===================================================================== *)
(** * The evaluator                                                       *)
(* ===================================================================== *)

Section Evaluator.
Import process_emission.

Lemma py_get_dict (d : list (string * json)) (key : string) (dflt : json) :
  py_get (JDict d) key dflt = Ok (default dflt (assoc key d)).
Proof. reflexivity. Qed.

(** What [_safe_float] absorbs and what it lets through. *)
Lemma safe_float_cases (v : json) :
  match py_float v with
  | Ok f => _safe_float v = Ok f
  | Raise TypeError | Raise ValueError => _safe_float v = Ok zero64
  | Raise e => _safe_float v = Raise e
  end.
Proof. unfold _safe_float. destruct (py_float v) as [f|[]]; reflexivity. Qed.

Lemma safe_float_raises_only_overflow (v : json) (e : exn) :
  _safe_float v = Raise e -> e = OverflowError /\ exists n, v = JInt n.
Proof.
  unfold _safe_float, py_float.
  destruct v as [|b|n|f|s|l|d]; cbn; try discriminate.
  - destruct (of_Z n); try discriminate. intros [= <-]. eauto.
  - destruct (PyFloat.of_str s); discriminate.
Qed.

(** A successful run of [process], read back field by field. *)
Lemma process_inv (self : EmissionProcessor) (event : json)
    (t t' : list action) (r : emission_record) :
  process self event t = (Ok r, t') ->
  exists d, event = JDict d
    /\ vehicle_id r = py_or (dict_get d "vehicle_id") (JStr "unknown")
    /\ timestep_time r = dict_get d "timestep_time"
    /\ coerced d "vehicle_CO" = Ok (vehicle_CO r)
    /\ coerced d "vehicle_CO2" = Ok (vehicle_CO2 r)
    /\ coerced d "vehicle_NOx" = Ok (vehicle_NOx r)
    /\ coerced d "vehicle_PMx" = Ok (vehicle_PMx r)
    /\ coerced d "vehicle_speed" = Ok (vehicle_speed r)
    /\ co2_status r = (if geb (vehicle_CO2 r) (co2_warn_threshold self) then "HIGH" else "OK")
    /\ co_status r = (if geb (vehicle_CO r) (co_warn_threshold self) then "HIGH" else "OK")
    /\ nox_status r = (if geb (vehicle_NOx r) (nox_warn_threshold self) then "HIGH" else "OK")
    /\ emission_score r =
         add (add (add (mul (vehicle_CO r) (of_decimal false 3 (-1)))
                       (mul (vehicle_CO2 r) (of_decimal false 5 (-4))))
                  (mul (vehicle_NOx r) (of_decimal false 10 (-1))))
             (mul (vehicle_PMx r) (of_decimal false 50 (-1)))
    /\ t' = (t ++ [LogProcessed r])%list.
Proof.
  unfold process, bind, lift, ret, emit, coerced, dict_get.
  destruct event as [|b|n|f|s|l|d]; cbn; try discriminate.
  destruct (_safe_float (default JNull (assoc "vehicle_CO" d)))
    as [co|] eqn:Hco; try discriminate.
  destruct (_safe_float (default JNull (assoc "vehicle_CO2" d)))
    as [co2|] eqn:Hco2; try discriminate.
  destruct (_safe_float (default JNull (assoc "vehicle_NOx" d)))
    as [nox|] eqn:Hnox; try discriminate.
  destruct (_safe_float (default JNull (assoc "vehicle_PMx" d)))
    as [pmx|] eqn:Hpmx; try discriminate.
  destruct (_safe_float (default JNull (assoc "vehicle_speed" d)))
    as [speed|] eqn:Hspeed; try discriminate.
  intros [= <- <-]. exists d. cbn. repeat split; assumption || reflexivity.
Qed.

(** When the five coercions return, [process] returns. *)
Lemma process_ok (self : EmissionProcessor) (d : list (string * json))
    (co co2 nox pmx speed : float64) (t : list action) :
  coerced d "vehicle_CO" = Ok co ->
  coerced d "vehicle_CO2" = Ok co2 ->
  coerced d "vehicle_NOx" = Ok nox ->
  coerced d "vehicle_PMx" = Ok pmx ->
  coerced d "vehicle_speed" = Ok speed ->
  exists r, process self (JDict d) t = (Ok r, (t ++ [LogProcessed r])%list).
Proof.
  unfold coerced, dict_get. intros Hco Hco2 Hnox Hpmx Hspeed.
  unfold process, bind, lift, ret, emit. rewrite !py_get_dict.
  rewrite Hco, Hco2, Hnox, Hpmx, Hspeed. eexists. reflexivity.
Qed.

(** The outcome of [process] does not depend on the trace it starts from. *)
Lemma process_outcome (self : EmissionProcessor) (event : json) (t : list action) :
  process self event t =
  match fst (process self event []) with
  | Ok r => (Ok r, (t ++ [LogProcessed r])%list)
  | Raise e => (Raise e, t)
  end.
Proof.
  destruct (process self event []) as [[r|e] t0] eqn:H0; cbn.
  - destruct (process_inv _ _ _ _ _ H0) as (d & -> & _).
    revert H0. unfold process, bind, lift, ret, emit. cbn.
    repeat match goal with
    | |- context [match _safe_float ?v with _ => _ end] =>
        destruct (_safe_float v); [| discriminate]
    end.
    now intros [= <- <-].
  - revert H0. unfold process, bind, lift, ret, emit.
    destruct event as [|b|n|f|s|l|d]; cbn; try (now intros [= <- <-]).
    repeat match goal with
    | |- context [match _safe_float ?v with _ => _ end] =>
        destruct (_safe_float v); [| now intros [= <- <-]]
    end.
    discriminate.
Qed.

(** The identifier of a record is never falsy. *)
Lemma process_identifier_truthy (self : EmissionProcessor) (event : json)
    (t t' : list action) (r : emission_record) :
  process self event t = (Ok r, t') -> truthy (vehicle_id r) = true.
Proof.
  intros H. destruct (process_inv _ _ _ _ _ H) as (d & _ & -> & _).
  now apply py_or_truthy.
Qed.

Lemma safe_float_int_overflow (n : Z) (e : exn) :
  _safe_float (JInt n) = Raise e -> exists s, of_Z n = S754_infinity s.
Proof.
  unfold _safe_float, py_float. destruct (of_Z n); try discriminate. eauto.
Qed.

(** X2. The evaluator returns a record for every dict none of whose five
    numeric fields is an integer beyond the binary64 range: a missing
    field, [None], a text that is not a number, a list or a dict all
    count as 0.0. *)
Lemma process_returns_unless_overflow (self : EmissionProcessor)
    (d : list (string * json)) (t : list action) :
  (forall key n s,
      In key ["vehicle_CO"; "vehicle_CO2"; "vehicle_NOx"; "vehicle_PMx"; "vehicle_speed"] ->
      dict_get d key = JInt n -> of_Z n <> S754_infinity s) ->
  exists r, process self (JDict d) t = (Ok r, (t ++ [LogProcessed r])%list).
Proof.
  intros Hrange.
  assert (Hok : forall key,
    In key ["vehicle_CO"; "vehicle_CO2"; "vehicle_NOx"; "vehicle_PMx"; "vehicle_speed"] ->
    exists f, coerced d key = Ok f).
  { intros key Hkey. unfold coerced.
    destruct (_safe_float (dict_get d key)) as [f|e] eqn:H; [eauto|].
    destruct (safe_float_raises_only_overflow _ _ H) as (_ & n & Hn).
    rewrite Hn in H. destruct (safe_float_int_overflow _ _ H) as [s Hs].
    now destruct (Hrange key n s Hkey Hn). }
  destruct (Hok "vehicle_CO") as [co Hco]; [cbn; tauto|].
  destruct (Hok "vehicle_CO2") as [co2 Hco2]; [cbn; tauto|].
  destruct (Hok "vehicle_NOx") as [nox Hnox]; [cbn; tauto|].
  destruct (Hok "vehicle_PMx") as [pmx Hpmx]; [cbn; tauto|].
  destruct (Hok "vehicle_speed") as [speed Hspeed]; [cbn; tauto|].
  exact (process_ok self d co co2 nox pmx speed t Hco Hco2 Hnox Hpmx Hspeed).
Qed.

End Evaluator.

Section EvaluatorSpec.
Import process_emission.

Lemma status_high_iff (reading threshold : float64) :
  (if geb reading threshold then "HIGH" else "OK") = "HIGH"
  <-> geb reading threshold = true.
Proof. destruct (geb reading threshold); split; congruence. Qed.

Lemma status_ok_iff (reading threshold : float64) :
  (if geb reading threshold then "HIGH" else "OK") = "OK"
  <-> geb reading threshold = false.
Proof. destruct (geb reading threshold); split; congruence. Qed.

(** C1. For every event on which the evaluator returns a record, each
    pollutant flag is ["HIGH"] exactly when the coerced reading is [>=]
    the threshold of the processor and ["OK"] otherwise; a reading equal
    to the threshold gives ["HIGH"]; the default thresholds are 8000.0
    (CO2), 200.0 (CO) and 5.0 (NOx). *)
Theorem C1_status_flags (self : EmissionProcessor) (d : list (string * json))
    (t t' : list action) (r : emission_record) :
  process self (JDict d) t = (Ok r, t') ->
  (coerced d "vehicle_CO2" = Ok (vehicle_CO2 r)
   /\ coerced d "vehicle_CO" = Ok (vehicle_CO r)
   /\ coerced d "vehicle_NOx" = Ok (vehicle_NOx r))
  /\ (co2_status r = "HIGH" <-> geb (vehicle_CO2 r) (co2_warn_threshold self) = true)
  /\ (co2_status r = "OK" <-> geb (vehicle_CO2 r) (co2_warn_threshold self) = false)
  /\ (co_status r = "HIGH" <-> geb (vehicle_CO r) (co_warn_threshold self) = true)
  /\ (co_status r = "OK" <-> geb (vehicle_CO r) (co_warn_threshold self) = false)
  /\ (nox_status r = "HIGH" <-> geb (vehicle_NOx r) (nox_warn_threshold self) = true)
  /\ (nox_status r = "OK" <-> geb (vehicle_NOx r) (nox_warn_threshold self) = false)
  /\ (SFeqb (vehicle_CO2 r) (co2_warn_threshold self) = true -> co2_status r = "HIGH")
  /\ (SFeqb (vehicle_CO r) (co_warn_threshold self) = true -> co_status r = "HIGH")
  /\ (SFeqb (vehicle_NOx r) (nox_warn_threshold self) = true -> nox_status r = "HIGH")
  /\ _processor = {| co2_warn_threshold := of_Z 8000;
                     co_warn_threshold := of_Z 200;
                     nox_warn_threshold := of_Z 5 |}.
Proof.
  intros H.
  destruct (process_inv _ _ _ _ _ H)
    as (d' & [= <-] & _ & _ & Hco & Hco2 & Hnox & _ & _ & S2 & S1 & S3 & _).
  rewrite S1, S2, S3.
  repeat split;
    try assumption;
    try (apply status_high_iff; assumption);
    try (apply status_ok_iff; assumption);
    try (intros G; apply status_high_iff in G; assumption);
    try (intros G; apply status_ok_iff in G; assumption);
    try (intros G; apply status_high_iff, geb_of_eqb, G).
Qed.

(** A CO2 reading of exactly 8000.0, a CO reading just below 200 and no
    NOx field, under the default thresholds. *)
Lemma C1_status_flags_witness :
  match fst (process _processor (JDict boundary_event) []) with
  | Ok r => co2_status r = "HIGH" /\ co_status r = "OK" /\ nox_status r = "OK"
  | Raise _ => False
  end.
Proof.
  destruct (process _processor (JDict boundary_event) []) as [[r|e] t'] eqn:H;
    cbn [fst].
  - destruct (C1_status_flags _ _ _ _ _ H)
      as (_ & _ & _ & _ & Hco & _ & Hnox & Hco2 & _).
    vm_compute in H. injection H as <- <-.
    split; [apply Hco2; reflexivity|].
    split; [apply Hco; reflexivity | apply Hnox; reflexivity].
  - vm_compute in H. discriminate.
Defined.

(** C2. For every event on which the evaluator returns a record, the
    score is [0.3*CO + 0.0005*CO2 + 1.0*NOx + 5.0*PMx] over the coerced
    readings, in float arithmetic; and the scenario event gives
    identifier car-3, flags HIGH, OK, OK and score 21.5. *)
Theorem C2_emission_score :
  (forall (self : EmissionProcessor) (d : list (string * json))
          (t t' : list action) (r : emission_record),
      process self (JDict d) t = (Ok r, t') ->
      exists CO CO2 NOx PMx,
        coerced d "vehicle_CO" = Ok CO /\ coerced d "vehicle_CO2" = Ok CO2
        /\ coerced d "vehicle_NOx" = Ok NOx /\ coerced d "vehicle_PMx" = Ok PMx
        /\ emission_score r = spec_score CO CO2 NOx PMx)
  /\ (forall t : list action,
      lambda_handler scenario_event t
      = (Ok scenario_record, (t ++ [LogProcessed scenario_record])%list)).
Proof.
  split.
  - intros self d t t' r H.
    destruct (process_inv _ _ _ _ _ H)
      as (d' & [= <-] & _ & _ & Hco & Hco2 & Hnox & Hpmx & _ & _ & _ & _ & Hs & _).
    exists (vehicle_CO r), (vehicle_CO2 r), (vehicle_NOx r), (vehicle_PMx r).
    repeat split; try assumption.
    rewrite Hs. unfold spec_score.
    now rewrite !(mul_comm (of_decimal false _ _)).
  - intros t. unfold lambda_handler. rewrite process_outcome.
    vm_compute. reflexivity.
Qed.

(** The score formula at the scenario event: 50*0.3 + 9000*0.0005 + 2*1.0. *)
Lemma C2_emission_score_witness :
  match fst (lambda_handler scenario_event []) with
  | Ok r => emission_score r = spec_score (of_Z 50) (of_Z 9000) (of_Z 2) zero64
            /\ emission_score r = of_decimal false 215 (-1)
  | Raise _ => False
  end.
Proof.
  unfold lambda_handler, scenario_event.
  match goal with |- context [process ?p (JDict ?d) ?t] =>
    destruct (process p (JDict d) t) as [[r|e] t'] eqn:H end; cbn [fst].
  - destruct (proj1 C2_emission_score _ _ _ _ _ H)
      as (CO & CO2 & NOx & PMx & H1 & H2 & H3 & H4 & Hs).
    vm_compute in H1, H2, H3, H4.
    injection H1 as <-. injection H2 as <-. injection H3 as <-. injection H4 as <-.
    split; [exact Hs|]. vm_compute in H. injection H as <- <-. reflexivity.
  - vm_compute in H. discriminate.
Defined.

(** C3 (the code departs from it). [_safe_float] absorbs [TypeError] and
    [ValueError] only: an integer beyond the binary64 range makes
    [float] raise [OverflowError], which leaves [_safe_float] and
    [process]; no record is returned. *)
Theorem C3_overflow_escapes :
  _safe_float (JInt (10 ^ 400)) = Raise OverflowError
  /\ forall t : list action,
       process _processor (JDict [("vehicle_CO", JInt (10 ^ 400))]) t
       = (Raise OverflowError, t).
Proof. split; [|intros t]; reflexivity. Qed.

(** [process] on a dict, its lookups written with [dict_get]. *)
Lemma process_dict (self : EmissionProcessor) (d : list (string * json)) :
  process self (JDict d) =
  (let* timestep := lift (Ok (dict_get d "timestep_time")) in
   let* vid := lift (Ok (dict_get d "vehicle_id")) in
   let vehicle_id := py_or vid (JStr "unknown") in
   let* v_co := lift (Ok (dict_get d "vehicle_CO")) in
   let* co := lift (_safe_float v_co) in
   let* v_co2 := lift (Ok (dict_get d "vehicle_CO2")) in
   let* co2 := lift (_safe_float v_co2) in
   let* v_nox := lift (Ok (dict_get d "vehicle_NOx")) in
   let* nox := lift (_safe_float v_nox) in
   let* v_pmx := lift (Ok (dict_get d "vehicle_PMx")) in
   let* pmx := lift (_safe_float v_pmx) in
   let* v_speed := lift (Ok (dict_get d "vehicle_speed")) in
   let* speed := lift (_safe_float v_speed) in
   let result :=
     {| vehicle_id := vehicle_id;
        timestep_time := timestep;
        vehicle_CO := co;
        vehicle_CO2 := co2;
        vehicle_NOx := nox;
        vehicle_PMx := pmx;
        vehicle_speed := speed;
        co2_status := if geb co2 (co2_warn_threshold self) then "HIGH" else "OK";
        co_status := if geb co (co_warn_threshold self) then "HIGH" else "OK";
        nox_status := if geb nox (nox_warn_threshold self) then "HIGH" else "OK";
        emission_score :=
          add (add (add (mul co (of_decimal false 3 (-1)))
                        (mul co2 (of_decimal false 5 (-4))))
                   (mul nox (of_decimal false 10 (-1))))
              (mul pmx (of_decimal false 50 (-1))) |} in
   emit (LogProcessed result) >>>
   ret result).
Proof. reflexivity. Qed.

Lemma py_or_falsy (a b : json) : truthy a = false -> py_or a b = b.
Proof. unfold py_or. now intros ->. Qed.

(** C10. Whatever falsy value the event holds under [vehicle_id] (no
    entry, [None], the empty string, [0], [False]), the record carries
    the identifier ["unknown"]; two events that differ only in which
    falsy value they hold there are evaluated alike, so an empty
    identifier cannot be told from a missing one. *)
Theorem C10_falsy_identifier_unknown :
  (forall d : list (string * json),
      assoc "vehicle_id" d = None
      \/ assoc "vehicle_id" d = Some JNull
      \/ assoc "vehicle_id" d = Some (JStr EmptyString)
      \/ assoc "vehicle_id" d = Some (JInt 0)
      \/ assoc "vehicle_id" d = Some (JBool false) ->
      truthy (dict_get d "vehicle_id") = false)
  /\ (forall (self : EmissionProcessor) (d : list (string * json))
             (t t' : list action) (r : emission_record),
         truthy (dict_get d "vehicle_id") = false ->
         process self (JDict d) t = (Ok r, t') ->
         vehicle_id r = JStr "unknown")
  /\ (forall (self : EmissionProcessor) (d1 d2 : list (string * json))
             (t : list action),
         truthy (dict_get d1 "vehicle_id") = false ->
         truthy (dict_get d2 "vehicle_id") = false ->
         (forall key, key <> "vehicle_id" -> dict_get d1 key = dict_get d2 key) ->
         process self (JDict d1) t = process self (JDict d2) t).
Proof.
  split; [|split].
  - unfold dict_get. intros d [H|[H|[H|[H|H]]]]; rewrite H; reflexivity.
  - intros self d t t' r Hf H.
    destruct (process_inv _ _ _ _ _ H) as (d' & [= <-] & -> & _).
    now apply py_or_falsy.
  - intros self d1 d2 t H1 H2 Hd.
    rewrite !process_dict. unfold bind, lift. cbn beta iota zeta.
    rewrite (py_or_falsy _ (JStr "unknown") H1), (py_or_falsy _ (JStr "unknown") H2).
    rewrite !(Hd "timestep_time"), !(Hd "vehicle_CO"), !(Hd "vehicle_CO2"),
      !(Hd "vehicle_NOx"), !(Hd "vehicle_PMx"), !(Hd "vehicle_speed")
      by discriminate.
    reflexivity.
Qed.

(** An event with an empty identifier and the same event without one. *)
Lemma C10_falsy_identifier_unknown_witness :
  match fst (process _processor
               (JDict [("vehicle_id", JStr EmptyString); ("vehicle_CO", JInt 7)]) []) with
  | Ok r => vehicle_id r = JStr "unknown"
  | Raise _ => False
  end
  /\ process _processor
       (JDict [("vehicle_id", JStr EmptyString); ("vehicle_CO", JInt 7)]) []
     = process _processor (JDict [("vehicle_CO", JInt 7)]) [].
Proof.
  destruct C10_falsy_identifier_unknown as (Hfalsy & Hunknown & Hsame).
  split.
  - destruct (process _processor
                (JDict [("vehicle_id", JStr EmptyString); ("vehicle_CO", JInt 7)]) [])
      as [[r|e] t'] eqn:H; cbn [fst].
    + refine (Hunknown _ _ _ _ _ (Hfalsy _ _) H).
      right; right; left; reflexivity.
    + vm_compute in H. discriminate.
  - apply Hsame; [reflexivity | reflexivity |].
    intros key Hkey. unfold dict_get. cbn [assoc].
    destruct (String.eqb_spec "vehicle_id" key) as [<-|_]; [now destruct Hkey | reflexivity].
Defined.

End EvaluatorSpec.

(* ===================================================================== *)
(** * The handler and the subscription                                    *)
(* ===================================================================== *)

Section Pipeline.
Import process_emission main_mqtt.
Context {R : Runtime}.

Lemma count_app (p : action -> bool) (t1 t2 : list action) :
  count p (t1 ++ t2) = (count p t1 + count p t2)%nat.
Proof. unfold count. now rewrite filter_app, length_app. Qed.

Lemma lambda_handler_outcome (event : json) (t : list action) :
  lambda_handler event t =
  match fst (lambda_handler event []) with
  | Ok r => (Ok r, (t ++ [LogProcessed r])%list)
  | Raise e => (Raise e, t)
  end.
Proof. apply process_outcome. Qed.

Lemma lambda_handler_truthy (event : json) (r : emission_record) :
  fst (lambda_handler event []) = Ok r -> truthy (vehicle_id r) = true.
Proof.
  intros H. destruct (lambda_handler event []) as [res t'] eqn:E.
  cbn in H. subst res. exact (process_identifier_truthy _ _ _ _ _ E).
Qed.

(** The handler, run symbolically: it always returns, and the trace it
    adds is fixed by the shape of the event, the outcome of the
    evaluator and the answers of the two sinks. *)
Lemma handle_vehicle_message_run (mqtt : mqtt_client)
    (firehose : option firehose_client) (event : json) (t : list action) :
  handle_vehicle_message mqtt firehose event t =
  (Ok tt,
   t ++ LogReceivedRaw event ::
     match py_get event "data" event with
     | Raise e => [LogHandlerError e]
     | Ok payload =>
       match fst (lambda_handler payload []) with
       | Raise e => [LogHandlerError e]
       | Ok r =>
         let before :=
           t ++ [LogReceivedRaw event; LogProcessed r;
                 LogPublishing (live_topic r) (serialized r)] in
         LogProcessed r :: LogPublishing (live_topic r) (serialized r)
         :: MqttPublish (live_topic r) (serialized r) 0
         :: match mqtt before (live_topic r) (serialized r) 0 with
            | Raise e => [LogHandlerError e]
            | Ok _ =>
              match firehose with
              | None => [LogFirehoseSkipped]
              | Some client =>
                FirehosePutRecord FIREHOSE_STREAM_NAME (stream_record r)
                :: match client (before ++ [MqttPublish (live_topic r) (serialized r) 0])
                                FIREHOSE_STREAM_NAME (stream_record r) with
                   | Ok _ => [LogFirehoseSent (vehicle_id r)]
                   | Raise fe => [LogFirehoseFailed fe]
                   end
              end
            end
       end
     end)%list.
Proof.
  unfold handle_vehicle_message, try_except, bind, emit, call, lift, ret.
  destruct (py_get event "data" event) as [payload|e]; cbn beta iota.
  2: { now rewrite <- app_assoc. }
  rewrite lambda_handler_outcome.
  destruct (fst (lambda_handler payload [])) as [r|e] eqn:Hr; cbn beta iota.
  2: { now rewrite <- app_assoc. }
  rewrite (lambda_handler_truthy _ _ Hr). cbn beta iota zeta.
  fold (live_topic r). fold (serialized r). fold newline. fold (stream_record r).
  rewrite <- !app_assoc. cbn [app].
  destruct (mqtt _ _ _ _) as [b|e]; cbn beta iota.
  2: { now rewrite <- !app_assoc. }
  destruct firehose as [client|]; cbn beta iota.
  2: { now rewrite <- !app_assoc. }
  rewrite <- !app_assoc. cbn [app].
  destruct (client _ _ _) as [[]|fe]; cbn beta iota;
    rewrite <- ?app_assoc; reflexivity.
Qed.

(** No exception leaves the handler. *)
Lemma handle_vehicle_message_returns (mqtt : mqtt_client)
    (firehose : option firehose_client) (event : json) (t : list action) :
  fst (handle_vehicle_message mqtt firehose event t) = Ok tt.
Proof. now rewrite handle_vehicle_message_run. Qed.

Lemma serialized_closes (r : emission_record) :
  exists body, serialized r = body ++ "}".
Proof.
  unfold serialized, record_to_dict. cbn [PyText.json_dumps].
  eexists (String "{" _). cbn [String.append]. reflexivity.
Qed.

Lemma on_message_callback_run (mqtt : mqtt_client)
    (firehose : option firehose_client) (msg : message) (t : list action) :
  on_message_callback mqtt firehose msg t =
  match bytes_decode_utf8 (payload msg) with
  | None => (Ok tt, t ++ [LogDecodeFailed])
  | Some s =>
      match json_loads s with
      | None => (Ok tt, t ++ [LogMessageReceived (topic msg) s; LogDecodeFailed])
      | Some event =>
          handle_vehicle_message mqtt firehose event
            (t ++ [LogMessageReceived (topic msg) s])
      end
  end%list.
Proof.
  unfold on_message_callback, try_except, bind, emit, lift, ret.
  destruct (bytes_decode_utf8 (payload msg)) as [s|]; cbn beta iota; [|reflexivity].
  destruct (json_loads s) as [event|]; cbn beta iota; [reflexivity|].
  now rewrite <- app_assoc.
Qed.

(** No exception leaves the callback. *)
Lemma on_message_callback_returns (mqtt : mqtt_client)
    (firehose : option firehose_client) (msg : message) (t : list action) :
  fst (on_message_callback mqtt firehose msg t) = Ok tt.
Proof.
  rewrite on_message_callback_run.
  destruct (bytes_decode_utf8 (payload msg)) as [s|]; [|reflexivity].
  destruct (json_loads s); [apply handle_vehicle_message_returns | reflexivity].
Qed.

(** The client [main] builds: the name [boto3] is unbound in the module,
    so the set-up always ends on [None]. *)
Lemma main_firehose_client_absent (t : list action) :
  configure_firehose_client module_boto3 t
  = (Ok None, (t ++ [LogFirehoseInit; LogFirehoseInitFailed NameError])%list).
Proof.
  unfold configure_firehose_client, try_except, bind, emit, lift, ret. cbn.
  now rewrite <- app_assoc.
Qed.

(** With no Firehose client the handler never calls the durable stream. *)
Lemma handle_without_stream (mqtt : mqtt_client) (event : json) (t : list action) :
  exists new,
    handle_vehicle_message mqtt None event t = (Ok tt, (t ++ new)%list)
    /\ count is_put_record new = 0%nat.
Proof.
  rewrite handle_vehicle_message_run. eexists. split; [reflexivity|].
  destruct (py_get event "data" event) as [payload|e]; [|reflexivity].
  destruct (fst (lambda_handler payload [])) as [r|e]; [|reflexivity].
  cbn zeta. destruct (mqtt _ _ _ _); reflexivity.
Qed.

(** X10. The program as written: [main] gets [None] from the Firehose
    set-up, because the name [boto3] is not bound in the module; so
    whatever arrives, it returns and the durable stream is never
    called. *)
Lemma main_never_appends (mqtt : mqtt_client) (inbound : list message)
    (t : list action) :
  exists new,
    main mqtt inbound t = (Ok tt, (t ++ new)%list)
    /\ count is_put_record new = 0%nat.
Proof.
  unfold main, bind. rewrite main_firehose_client_absent.
  assert (Hsub : forall msgs t0, exists new,
            subscription mqtt None msgs t0 = (Ok tt, (t0 ++ new)%list)
            /\ count is_put_record new = 0%nat).
  { induction msgs as [|msg msgs IH]; intros t0.
    - exists []. split; [|reflexivity]. cbn. unfold ret. now rewrite app_nil_r.
    - unfold subscription. cbn [for_each]. unfold bind at 1.
      assert (Hcb : exists new,
                on_message_callback mqtt None msg t0 = (Ok tt, (t0 ++ new)%list)
                /\ count is_put_record new = 0%nat).
      { rewrite on_message_callback_run.
        destruct (bytes_decode_utf8 (payload msg)) as [s|].
        2: { eexists. split; reflexivity. }
        destruct (json_loads s) as [event|].
        2: { eexists. split; reflexivity. }
        destruct (handle_without_stream mqtt event
                    (t0 ++ [LogMessageReceived (topic msg) s])%list)
          as (new & Hrun & Hcount).
        exists (LogMessageReceived (topic msg) s :: new). split.
        - rewrite Hrun. now rewrite <- app_assoc.
        - exact Hcount. }
      destruct Hcb as (new1 & Hrun1 & Hc1). rewrite Hrun1.
      destruct (IH (t0 ++ new1)%list) as (new2 & Hrun2 & Hc2).
      exists (new1 ++ new2)%list. split.
      + fold (subscription mqtt None msgs). rewrite Hrun2. now rewrite <- app_assoc.
      + now rewrite count_app, Hc1, Hc2. }
  destruct (Hsub inbound (t ++ [LogFirehoseInit; LogFirehoseInitFailed NameError])%list)
    as (new & Hrun & Hcount).
  exists ([LogFirehoseInit; LogFirehoseInitFailed NameError] ++ new)%list. split.
  - rewrite Hrun. now rewrite <- app_assoc.
  - now rewrite count_app, Hcount.
Qed.

End Pipeline.

Section PipelineSpec.
Import process_emission main_mqtt.
Context {R : Runtime}.

(** C4 (as amended). For a decoded event that is a JSON object and whose
    payload the evaluator accepts, the handler returns, produces exactly
    one record and makes exactly one publish attempt on the live topic,
    whatever the durable-stream client is or answers.  The durable
    stream gets exactly one append attempt when its client is present
    and the live publish has returned, and none when its client is
    [None]; a failing append stays inside the handler. *)
Theorem C4_fan_out (mqtt : mqtt_client) (firehose : option firehose_client)
    (event payload : json) (r : emission_record) (t : list action) :
  py_get event "data" event = Ok payload ->
  fst (lambda_handler payload []) = Ok r ->
  exists new,
    handle_vehicle_message mqtt firehose event t = (Ok tt, (t ++ new)%list)
    /\ filter (fun a => is_record a = true) new = [LogProcessed r]
    /\ filter (fun a => is_publish a = true) new
       = [MqttPublish (live_topic r) (serialized r) 0]
    /\ count is_record new = 1%nat
    /\ count is_publish new = 1%nat
    /\ (firehose = None -> count is_put_record new = 0%nat)
    /\ (forall client b,
          firehose = Some client ->
          mqtt (t ++ [LogReceivedRaw event; LogProcessed r;
                      LogPublishing (live_topic r) (serialized r)])%list
               (live_topic r) (serialized r) 0 = Ok b ->
          filter (fun a => is_put_record a = true) new
          = [FirehosePutRecord FIREHOSE_STREAM_NAME (stream_record r)]
          /\ count is_put_record new = 1%nat).
Proof.
  intros Hp Hr. rewrite handle_vehicle_message_run, Hp, Hr. cbn zeta.
  eexists. split; [reflexivity|].
  destruct (mqtt _ _ _ _) as [b|e].
  - destruct firehose as [client|].
    + destruct (client _ _ _) as [[]|fe];
        repeat apply conj; try reflexivity; try discriminate;
        intros ? ? _ _; split; reflexivity.
    + repeat apply conj; try reflexivity. intros ? ? [=].
  - destruct firehose as [client|];
      repeat apply conj; try reflexivity; try discriminate;
      intros ? ? ?; discriminate.
Qed.

(** C8. When the Firehose client cannot be built, the set-up answers
    [None]; with [None] for a client the handler returns for every
    event, never calls the durable stream, and publishes every record
    it produces to the live topic. *)
Theorem C8_absent_stream_skipped :
  (forall (boto3 : boto3_binding) (e : exn) (t : list action),
      boto3_client boto3 "firehose" AWS_REGION = Raise e ->
      configure_firehose_client boto3 t
      = (Ok None, (t ++ [LogFirehoseInit; LogFirehoseInitFailed e])%list))
  /\ (forall (mqtt : mqtt_client) (event : json) (t : list action),
      exists new,
        handle_vehicle_message mqtt None event t = (Ok tt, (t ++ new)%list)
        /\ count is_put_record new = 0%nat
        /\ count is_publish new = count is_record new
        /\ (forall r, In (LogProcessed r) new ->
                      In (MqttPublish (live_topic r) (serialized r) 0) new)
        /\ (In LogFirehoseSkipped new \/ exists e, In (LogHandlerError e) new)).
Proof.
  split.
  - intros boto3 e t H.
    unfold configure_firehose_client, try_except, bind, emit, lift, ret.
    rewrite H. now rewrite <- app_assoc.
  - intros mqtt event t. rewrite handle_vehicle_message_run.
    eexists. split; [reflexivity|].
    destruct (py_get event "data" event) as [payload|e].
    2: { repeat apply conj; try reflexivity.
         - intros r [[=]|[[=]|[]]].
         - right. exists e. cbn. tauto. }
    destruct (fst (lambda_handler payload [])) as [r|e].
    2: { repeat apply conj; try reflexivity.
         - intros r [[=]|[[=]|[]]].
         - right. exists e. cbn. tauto. }
    cbn zeta. destruct (mqtt _ _ _ _) as [b|e].
    + repeat apply conj; try reflexivity.
      * intros r' [[=]|[[= <-]|[[=]|[[=]|[[=]|[]]]]]]. cbn. tauto.
      * left. cbn. tauto.
    + repeat apply conj; try reflexivity.
      * intros r' [[=]|[[= <-]|[[=]|[[=]|[[=]|[]]]]]]. cbn. tauto.
      * right. exists e. cbn. tauto.
Qed.

(** C9. Every publish on the live topic goes to [OUTPUT_TOPIC_PREFIX]
    followed by the identifier of the record just produced (followed by
    the text itself when the identifier is a string) and carries the
    serialized record; every append to the durable stream carries the
    serialized record, which ends on a closing brace, followed by one
    newline. *)
Theorem C9_topic_and_stream_record (mqtt : mqtt_client)
    (firehose : option firehose_client) (event : json) (t : list action) :
  exists new,
    handle_vehicle_message mqtt firehose event t = (Ok tt, (t ++ new)%list)
    /\ Forall (fun a =>
         match a with
         | MqttPublish topic payload qos =>
             exists r, In (LogProcessed r) new
               /\ topic = OUTPUT_TOPIC_PREFIX ++ PyText.py_str (vehicle_id r)
               /\ (forall s, vehicle_id r = JStr s -> topic = "iot/Vehicle_" ++ s)
               /\ payload = PyText.json_dumps (record_to_dict r)
         | FirehosePutRecord stream data =>
             exists r, In (LogProcessed r) new
               /\ stream = FIREHOSE_STREAM_NAME
               /\ data = PyText.json_dumps (record_to_dict r) ++ String "010" EmptyString
               /\ exists body, PyText.json_dumps (record_to_dict r) = body ++ "}"
         | _ => True
         end) new.
Proof.
  rewrite handle_vehicle_message_run. eexists. split; [reflexivity|].
  assert (Hpub : forall r,
    exists r', In (LogProcessed r') [LogReceivedRaw event; LogProcessed r]
      /\ live_topic r = OUTPUT_TOPIC_PREFIX ++ PyText.py_str (vehicle_id r')
      /\ (forall s, vehicle_id r' = JStr s -> live_topic r = "iot/Vehicle_" ++ s)
      /\ serialized r = PyText.json_dumps (record_to_dict r')).
  { intros r. exists r. repeat split; [cbn; tauto|].
    intros s Hs. unfold live_topic. now rewrite Hs. }
  destruct (py_get event "data" event) as [payload|e].
  2: { repeat constructor. }
  destruct (fst (lambda_handler payload [])) as [r|e].
  2: { repeat constructor. }
  cbn zeta.
  assert (Hin : forall rest, In (LogProcessed r)
                  (LogReceivedRaw event :: LogProcessed r :: rest)).
  { intros rest. cbn. tauto. }
  destruct (mqtt _ _ _ _) as [b|e]; [destruct firehose as [client|];
    [destruct (client _ _ _) as [[]|fe]|]|];
    repeat (apply Forall_cons; split); try apply Forall_nil; try exact I.
  all: try (exists r; split; [apply Hin|]; repeat split;
            [intros s Hs; unfold live_topic; now rewrite Hs]).
  all: exists r; split; [apply Hin|]; repeat split; apply serialized_closes.
Qed.

(** C5. A message whose payload does not decode as UTF-8 JSON is logged
    and dropped: the callback returns, the trace grows by the log lines
    of the failure only (no record, no sink call), and the messages that
    follow are handled as they would be from that trace. *)
Theorem C5_undecodable_dropped (mqtt : mqtt_client)
    (firehose : option firehose_client) (msg : message) (rest : list message)
    (t : list action) :
  decode msg = None ->
  exists logs,
    on_message_callback mqtt firehose msg t = (Ok tt, (t ++ logs)%list)
    /\ (logs = [LogDecodeFailed]
        \/ exists s, logs = [LogMessageReceived (topic msg) s; LogDecodeFailed])
    /\ count is_record logs = 0%nat
    /\ count is_publish logs = 0%nat
    /\ count is_put_record logs = 0%nat
    /\ subscription mqtt firehose (msg :: rest) t
       = subscription mqtt firehose rest (t ++ logs)%list.
Proof.
  unfold decode. intros Hd.
  unfold subscription. cbn [for_each]. unfold bind at 1.
  rewrite on_message_callback_run.
  destruct (bytes_decode_utf8 (payload msg)) as [s|]; cbn in Hd.
  - rewrite Hd. eexists. split; [reflexivity|].
    repeat split; try reflexivity. right. now exists s.
  - eexists. split; [reflexivity|].
    repeat split; try reflexivity. now left.
Qed.

End PipelineSpec.

(** ** Closed instances *)

Section PipelineInstances.
Import process_emission main_mqtt.

(** The scenario event wrapped as the HTTPS publisher wraps a row, the
    live topic up, the durable stream refusing the append. *)
Lemma C4_fan_out_witness :
  exists new,
    handle_vehicle_message (R := Example.runtime) Example.mqtt_up
      (Some Example.firehose_down)
      (JDict [("device_id", JStr "lab4-car-3"); ("data", scenario_event)]) []
    = (Ok tt, new)
    /\ count is_record new = 1%nat
    /\ count is_publish new = 1%nat
    /\ count is_put_record new = 1%nat.
Proof.
  destruct (C4_fan_out (R := Example.runtime) Example.mqtt_up
              (Some Example.firehose_down)
              (JDict [("device_id", JStr "lab4-car-3"); ("data", scenario_event)])
              scenario_event scenario_record [] eq_refl eq_refl)
    as (new & Hrun & _ & _ & Hrec & Hpub & _ & Hput).
  exists new. split; [exact Hrun|]. split; [exact Hrec|]. split; [exact Hpub|].
  exact (proj2 (Hput Example.firehose_down true eq_refl eq_refl)).
Defined.

(** C4 as stated fails three ways on the scenario event: with no
    Firehose client the durable stream is not attempted; when the live
    publish raises the durable stream is not attempted although its
    client is up; and a decoded payload that is not a JSON object yields
    no record. *)
Lemma C4_counterexample :
  let run mqtt firehose event :=
    snd (handle_vehicle_message (R := Example.runtime) mqtt firehose event []) in
  (count is_record (run Example.mqtt_up None scenario_event) = 1%nat
   /\ count is_put_record (run Example.mqtt_up None scenario_event) = 0%nat)
  /\ (count is_record (run Example.mqtt_down (Some Example.firehose_up) scenario_event) = 1%nat
      /\ count is_publish (run Example.mqtt_down (Some Example.firehose_up) scenario_event) = 1%nat
      /\ count is_put_record (run Example.mqtt_down (Some Example.firehose_up) scenario_event) = 0%nat)
  /\ count is_record (run Example.mqtt_up (Some Example.firehose_up) (JList [])) = 0%nat.
Proof. vm_compute. repeat split. Qed.

(** The set-up of [main] and the handler on the scenario event. *)
Lemma C8_absent_stream_skipped_witness :
  configure_firehose_client module_boto3 []
  = (Ok None, [LogFirehoseInit; LogFirehoseInitFailed NameError])
  /\ exists new,
       handle_vehicle_message (R := Example.runtime) Example.mqtt_up None
         scenario_event [] = (Ok tt, new)
       /\ count is_put_record new = 0%nat
       /\ In (MqttPublish (live_topic (R := Example.runtime) scenario_record)
                          (serialized (R := Example.runtime) scenario_record) 0) new.
Proof.
  destruct (C8_absent_stream_skipped (R := Example.runtime)) as [Hsetup Hrun].
  split; [exact (Hsetup module_boto3 NameError [] eq_refl)|].
  destruct (Hrun Example.mqtt_up scenario_event []) as (new & H & Hput & _ & Hpub & _).
  exists new. split; [exact H|]. split; [exact Hput|].
  apply Hpub. vm_compute in H. injection H as <-. cbn. tauto.
Defined.

Lemma C9_topic_and_stream_record_witness :
  exists new,
    handle_vehicle_message (R := Example.runtime) Example.mqtt_up
      (Some Example.firehose_up) scenario_event [] = (Ok tt, new)
    /\ In (MqttPublish "iot/Vehicle_car-3"
             (PyText.json_dumps (R := Example.runtime) (record_to_dict scenario_record)) 0)
          new
    /\ In (FirehosePutRecord "lab4-vehicle-emissions-stream"
             (PyText.json_dumps (R := Example.runtime) (record_to_dict scenario_record)
              ++ String "010" EmptyString))
          new.
Proof.
  destruct (C9_topic_and_stream_record (R := Example.runtime) Example.mqtt_up
              (Some Example.firehose_up) scenario_event [])
    as (new & H & _).
  exists new. split; [exact H|].
  vm_compute in H. injection H as <-. vm_compute. tauto.
Defined.

(** A payload that is not UTF-8, then one that is not JSON. *)
Lemma C5_undecodable_dropped_witness :
  subscription (R := Example.runtime) Example.mqtt_up None
    [ {| payload := [Byte.xff]; topic := INPUT_TOPIC |};
      {| payload := [Byte.x7b]; topic := INPUT_TOPIC |} ] []
  = (Ok tt, [LogDecodeFailed; LogMessageReceived INPUT_TOPIC "{"; LogDecodeFailed]).
Proof.
  destruct (C5_undecodable_dropped (R := Example.runtime) Example.mqtt_up None
              {| payload := [Byte.xff]; topic := INPUT_TOPIC |}
              [ {| payload := [Byte.x7b]; topic := INPUT_TOPIC |} ] [] eq_refl)
    as (logs & Hrun & _ & _ & _ & _ & Hnext).
  rewrite Hnext. vm_compute in Hrun. injection Hrun as <-. cbn [app].
  destruct (C5_undecodable_dropped (R := Example.runtime) Example.mqtt_up None
              {| payload := [Byte.x7b]; topic := INPUT_TOPIC |}
              [] [LogDecodeFailed] eq_refl)
    as (logs & Hrun & _ & _ & _ & _ & Hlast).
  rewrite Hlast. vm_compute in Hrun. injection Hrun as <-. reflexivity.
Defined.

End PipelineInstances.

(* ===================================================================== *)
(** * The fleet publishers                                                *)
(* ===================================================================== *)

Section Publishers.
Context {R : Runtime}.

Lemma path_exists_lookup (fs : filesystem) (path : string) (df : dataframe) :
  fs !! path = Some df -> path_exists fs path = true /\ read_csv fs path = Ok df.
Proof.
  intros H. unfold path_exists, read_csv. rewrite H. split; [|reflexivity].
  apply bool_decide_eq_true_2. eauto.
Qed.

Lemma sent_payloads_app (t1 t2 : list emu_action) :
  sent_payloads (t1 ++ t2) = (sent_payloads t1 ++ sent_payloads t2)%list.
Proof. apply omap_app. Qed.

Lemma wire_app (t1 t2 : list emu_action) :
  wire (t1 ++ t2) = (wire t1 ++ wire t2)%list.
Proof. apply filter_app. Qed.

(** *** The MQTT publisher *)

Section Mqtt.
Import emulator_mqtt.
Variable self : MQTTClient.
Variable topic : string.

(** The row loop with a transport that accepts every message. *)
Lemma mqtt_rows_run (df : dataframe) :
  (forall t0 tp p q, publishAsync (client self) t0 tp p q = Ok tt) ->
  forall t,
    for_each df (publish_row self topic) t =
    (Ok tt,
     t ++ flat_map (fun r => [ Stdout (PublishingFrom (device_id self) (mqtt_payload r));
                               PublishAsync (device_id self) topic (mqtt_payload r) 0;
                               Sleep inter_row_delay ]) df)%list.
Proof.
  intros Hup. induction df as [|r df IH]; intros t.
  - cbn. unfold ret. now rewrite app_nil_r.
  - cbn [for_each flat_map]. unfold bind at 1.
    unfold publish_row, bind, emit, call. rewrite Hup.
    rewrite IH. rewrite <- !app_assoc. reflexivity.
Qed.

(** The row loop with any transport: what was handed over is a run of
    first rows, in file order. *)
Lemma mqtt_rows_prefix (df : dataframe) (t : list emu_action) :
  exists n new res,
    for_each df (publish_row self topic) t = (res, (t ++ new)%list)
    /\ sent_payloads new = map mqtt_payload (take n df).
Proof.
  revert t. induction df as [|r df IH]; intros t.
  - exists 0%nat, [], (Ok tt). cbn. unfold ret. now rewrite app_nil_r.
  - cbn [for_each]. unfold bind at 1.
    unfold publish_row, bind, emit, call. cbn beta iota zeta.
    fold (mqtt_payload r).
    destruct (publishAsync (client self) _ topic _ 0) as [[]|e].
    + edestruct IH as (n & new & res & Hrun & Hsent).
      exists (S n), ([Stdout (PublishingFrom (device_id self) (mqtt_payload r));
                      PublishAsync (device_id self) topic (mqtt_payload r) 0;
                      Sleep (of_decimal false 2 (-1))] ++ new)%list, res.
      split.
      * rewrite Hrun. now rewrite <- !app_assoc.
      * rewrite sent_payloads_app, Hsent. reflexivity.
    + exists 1%nat, [Stdout (PublishingFrom (device_id self) (mqtt_payload r));
                     PublishAsync (device_id self) topic (mqtt_payload r) 0], (Raise e).
      split; [now rewrite <- !app_assoc | reflexivity].
Qed.

End Mqtt.

(** *** The HTTPS publisher *)

Section Https.
Import emulator_https.
Variable iot_data : iot_data_client.
Variable device_id : string.

Lemma https_rows_run (df : dataframe) :
  (forall t0 tp q p, iot_data t0 tp q p = Ok tt) ->
  forall t,
    for_each df (publish_row iot_data device_id) t =
    (Ok tt,
     t ++ flat_map (fun r => [ Stdout (PublishLine device_id TOPIC (https_payload device_id r));
                               IotDataPublish TOPIC 0 (https_payload device_id r);
                               Sleep inter_row_delay ]) df)%list.
Proof.
  intros Hup. induction df as [|r df IH]; intros t.
  - cbn. unfold ret. now rewrite app_nil_r.
  - cbn [for_each flat_map]. unfold bind at 1.
    unfold publish_row, bind, emit, call. rewrite Hup.
    rewrite IH. rewrite <- !app_assoc. reflexivity.
Qed.

Lemma https_rows_prefix (df : dataframe) (t : list emu_action) :
  exists n new res,
    for_each df (publish_row iot_data device_id) t = (res, (t ++ new)%list)
    /\ sent_payloads new = map (https_payload device_id) (take n df).
Proof.
  revert t. induction df as [|r df IH]; intros t.
  - exists 0%nat, [], (Ok tt). cbn. unfold ret. now rewrite app_nil_r.
  - cbn [for_each]. unfold bind at 1.
    unfold publish_row, bind, emit, call. cbn beta iota zeta.
    fold (https_payload device_id r).
    destruct (iot_data _ TOPIC 0 _) as [[]|e].
    + edestruct IH as (n & new & res & Hrun & Hsent).
      exists (S n), ([Stdout (PublishLine device_id TOPIC (https_payload device_id r));
                      IotDataPublish TOPIC 0 (https_payload device_id r);
                      Sleep (of_decimal false 2 (-1))] ++ new)%list, res.
      split.
      * rewrite Hrun. now rewrite <- !app_assoc.
      * rewrite sent_payloads_app, Hsent. reflexivity.
    + exists 1%nat, [Stdout (PublishLine device_id TOPIC (https_payload device_id r));
                     IotDataPublish TOPIC 0 (https_payload device_id r)], (Raise e).
      split; [now rewrite <- !app_assoc | reflexivity].
Qed.

End Https.

Lemma wire_rows {A} (f g h : A -> emu_action) (l : list A) :
  (forall x, is_stdout (f x) = true) ->
  (forall x, is_stdout (g x) = false) ->
  (forall x, is_stdout (h x) = false) ->
  wire (flat_map (fun x => [f x; g x; h x]) l) = flat_map (fun x => [g x; h x]) l.
Proof.
  intros Hf Hg Hh. induction l as [|x l IH]; [reflexivity|].
  cbn [flat_map]. rewrite wire_app, IH. f_equal.
  unfold wire.
  rewrite filter_cons_False by (rewrite Hf; discriminate).
  rewrite filter_cons_True by apply Hg.
  rewrite filter_cons_True by apply Hh.
  reflexivity.
Qed.

(** C6. A device whose dataset has K rows: one call of the publish
    command hands the transport the K row messages, one per row and in
    file order, each followed by the fixed 0.2 s pause, when the
    transport accepts them; and whatever the transport answers, what
    was handed over is a run of first rows in file order.  This holds
    for the MQTT publisher ([MQTTClient.publish]) and for the HTTPS
    publisher ([publish_car_data]). *)
Theorem C6_rows_sent_in_file_order :
  (forall (fs : filesystem) (self : emulator_mqtt.MQTTClient) (topic : string)
          (df : dataframe) (t : list emu_action),
      fs !! emulator_mqtt.data_path (emulator_mqtt.numeric_id self) = Some df ->
      (exists n new res,
          emulator_mqtt.publish fs self topic t = (res, (t ++ new)%list)
          /\ sent_payloads new = map mqtt_payload (take n df))
      /\ ((forall t0 tp p q,
              emulator_mqtt.publishAsync (emulator_mqtt.client self) t0 tp p q = Ok tt) ->
          exists new,
            emulator_mqtt.publish fs self topic t = (Ok tt, (t ++ new)%list)
            /\ sent_payloads new = map mqtt_payload df
            /\ length (sent_payloads new) = length df
            /\ wire new =
               flat_map (fun r => [ PublishAsync (emulator_mqtt.device_id self) topic
                                                 (mqtt_payload r) 0;
                                    Sleep inter_row_delay ]) df))
  /\ (forall (fs : filesystem) (iot_data : emulator_https.iot_data_client)
             (car_id : Z) (df : dataframe) (t : list emu_action),
      let device_id := "lab4-car-" ++ PyText.of_Z car_id in
      fs !! ("vehicle-data/vehicle" ++ PyText.of_Z car_id ++ ".csv") = Some df ->
      (exists n new res,
          emulator_https.publish_car_data fs iot_data car_id t = (res, (t ++ new)%list)
          /\ sent_payloads new = map (https_payload device_id) (take n df))
      /\ ((forall t0 tp q p, iot_data t0 tp q p = Ok tt) ->
          exists new,
            emulator_https.publish_car_data fs iot_data car_id t = (Ok tt, (t ++ new)%list)
            /\ sent_payloads new = map (https_payload device_id) df
            /\ length (sent_payloads new) = length df
            /\ wire new =
               flat_map (fun r => [ IotDataPublish emulator_https.TOPIC 0
                                                   (https_payload device_id r);
                                    Sleep inter_row_delay ]) df)).
Proof.
  split.
  - intros fs self topic df t Hfs.
    destruct (path_exists_lookup _ _ _ Hfs) as [Hex Hread].
    assert (Hpub : emulator_mqtt.publish fs self topic t
                   = for_each df (emulator_mqtt.publish_row self topic) t).
    { unfold emulator_mqtt.publish. rewrite Hex, Hread. reflexivity. }
    rewrite Hpub. split.
    + apply mqtt_rows_prefix.
    + intros Hup. rewrite (mqtt_rows_run self topic df Hup). eexists.
      split; [reflexivity|].
      assert (Hsent : forall l : dataframe,
        sent_payloads
          (flat_map (fun r => [ Stdout (PublishingFrom (emulator_mqtt.device_id self)
                                                       (mqtt_payload r));
                                PublishAsync (emulator_mqtt.device_id self) topic
                                             (mqtt_payload r) 0;
                                Sleep inter_row_delay ]) l)
        = map mqtt_payload l).
      { induction l as [|r l IH]; [reflexivity|].
        cbn [flat_map map]. rewrite sent_payloads_app, IH. reflexivity. }
      rewrite Hsent, length_map.
      repeat split.
      apply (wire_rows
               (fun r => Stdout (PublishingFrom (emulator_mqtt.device_id self)
                                                (mqtt_payload r)))
               (fun r => PublishAsync (emulator_mqtt.device_id self) topic
                                      (mqtt_payload r) 0)
               (fun _ => Sleep inter_row_delay)); reflexivity.
  - intros fs iot_data car_id df t device_id Hfs.
    destruct (path_exists_lookup _ _ _ Hfs) as [Hex Hread].
    assert (Hpub : emulator_https.publish_car_data fs iot_data car_id t
                   = for_each df (emulator_https.publish_row iot_data device_id)
                       (t ++ [Stdout (InfoPublishing device_id
                                ("vehicle-data/vehicle" ++ PyText.of_Z car_id ++ ".csv"))])%list).
    { unfold emulator_https.publish_car_data, emulator_https.VEHICLE_DATA_DIR.
      change ("vehicle-data" ++ "/vehicle" ++ PyText.of_Z car_id ++ ".csv")
        with ("vehicle-data/vehicle" ++ PyText.of_Z car_id ++ ".csv").
      rewrite Hex, Hread. reflexivity. }
    rewrite Hpub. split.
    + destruct (https_rows_prefix iot_data device_id df
                  (t ++ [Stdout (InfoPublishing device_id
                           ("vehicle-data/vehicle" ++ PyText.of_Z car_id ++ ".csv"))])%list)
        as (n & new & res & Hrun & Hsent).
      exists n, (Stdout (InfoPublishing device_id
                   ("vehicle-data/vehicle" ++ PyText.of_Z car_id ++ ".csv")) :: new), res.
      split; [|exact Hsent].
      rewrite Hrun. now rewrite <- app_assoc.
    + intros Hup. rewrite (https_rows_run iot_data device_id df Hup).
      eexists. split; [now rewrite <- app_assoc|].
      assert (Hsent : forall l : dataframe,
        sent_payloads
          (flat_map (fun r => [ Stdout (PublishLine device_id emulator_https.TOPIC
                                                    (https_payload device_id r));
                                IotDataPublish emulator_https.TOPIC 0
                                               (https_payload device_id r);
                                Sleep inter_row_delay ]) l)
        = map (https_payload device_id) l).
      { induction l as [|r l IH]; [reflexivity|].
        cbn [flat_map map]. rewrite sent_payloads_app, IH. reflexivity. }
      cbn [app]. change (sent_payloads (?a :: ?l)) with (sent_payloads l).
      rewrite Hsent, length_map. repeat split.
      change (wire (Stdout ?x :: ?l)) with (wire l).
      apply (wire_rows
               (fun r => Stdout (PublishLine device_id emulator_https.TOPIC
                                             (https_payload device_id r)))
               (fun r => IotDataPublish emulator_https.TOPIC 0 (https_payload device_id r))
               (fun _ => Sleep inter_row_delay)); reflexivity.
Qed.

(** C7 (the code departs from it). On a machine where only car 2 has a
    dataset, the MQTT publisher's round raises [FileNotFoundError] at
    car 1: the exception ends the command loop, car 2 sends nothing and
    the next command is never read.  The loading loop of the same
    script passes over each missing dataset with a warning, and the
    HTTPS publisher on the same machine warns, sends both rows of car 2
    and goes on to the next command. *)
Theorem C7_missing_dataset_ends_round :
  emulator_mqtt.command_loop Example.only_car2 Example.two_cars ["s"; "d"] []
  = (Raise FileNotFoundError, [Stdout Prompt])
  /\ fst (emulator_mqtt.load_data Example.only_car2
            (range emulator_mqtt.device_st emulator_mqtt.device_end) [] [])
     = Ok [Example.car2_rows]
  /\ fst (emulator_https.main_loop Example.only_car2 Example.iot_up ["s"; "d"] [])
     = Ok tt
  /\ sent_payloads
       (snd (emulator_https.main_loop Example.only_car2 Example.iot_up ["s"; "d"] []))
     = map (https_payload "lab4-car-2") Example.car2_rows
  /\ In (Stdout (WarnCsvNotFound "lab4-car-1" "vehicle-data/vehicle1.csv"))
        (snd (emulator_https.main_loop Example.only_car2 Example.iot_up ["s"; "d"] [])).
Proof. vm_compute. repeat split. tauto. Qed.

End Publishers.

(** Car 2 and its two rows, on both publishers. *)
Lemma C6_rows_sent_in_file_order_witness :
  (exists new,
      emulator_mqtt.publish (R := Example.runtime) Example.only_car2
        (emulator_mqtt.MQTTClient_init 2 Example.sdk_up)
        emulator_mqtt.default_topic [] = (Ok tt, new)
      /\ sent_payloads new = map (mqtt_payload (R := Example.runtime)) Example.car2_rows
      /\ length (sent_payloads new) = 2%nat)
  /\ (exists new,
      emulator_https.publish_car_data (R := Example.runtime) Example.only_car2
        Example.iot_up 2 [] = (Ok tt, new)
      /\ sent_payloads new
         = map (https_payload (R := Example.runtime) "lab4-car-2") Example.car2_rows
      /\ length (sent_payloads new) = 2%nat).
Proof.
  destruct (C6_rows_sent_in_file_order (R := Example.runtime)) as [Hmqtt Hhttps].
  split.
  - destruct (Hmqtt Example.only_car2 (emulator_mqtt.MQTTClient_init 2 Example.sdk_up)
                emulator_mqtt.default_topic Example.car2_rows [] eq_refl)
      as [_ Hall].
    destruct (Hall (fun _ _ _ _ => eq_refl)) as (new & Hrun & Hsent & Hlen & _).
    exists new. split; [exact Hrun|]. split; [exact Hsent | exact Hlen].
  - destruct (Hhttps Example.only_car2 Example.iot_up 2 Example.car2_rows [] eq_refl)
      as [_ Hall].
    destruct (Hall (fun _ _ _ _ => eq_refl)) as (new & Hrun & Hsent & Hlen & _).
    exists new. split; [exact Hrun|]. split; [exact Hsent | exact Hlen].
Defined.

(* ===================================================================== *)
(** * Further properties of the evaluator                                 *)
(* ===================================================================== *)

Section EvaluatorMore.
Import process_emission.

Lemma geb_nan_l (b : float64) : geb S754_nan b = false.
Proof. unfold geb, SFleb. now destruct b. Qed.

Lemma mul_nan_l (b : float64) : mul S754_nan b = S754_nan.
Proof. reflexivity. Qed.

Lemma add_nan_l (b : float64) : add S754_nan b = S754_nan.
Proof. reflexivity. Qed.

Lemma add_nan_r (a : float64) : add a S754_nan = S754_nan.
Proof. now destruct a. Qed.

Lemma py_or_truthy_l (a b : json) : truthy a = true -> py_or a b = a.
Proof. unfold py_or. now intros ->. Qed.

(** X1. The only exceptions that leave [process] are [AttributeError],
    when the event is not a dict, and [OverflowError], when one of the
    five numeric fields holds an integer beyond the binary64 range; in
    both cases nothing has been logged. *)
Theorem process_raises_only (self : EmissionProcessor) (event : json)
    (t t' : list action) (e : exn) :
  process self event t = (Raise e, t') ->
  t' = t
  /\ ((e = AttributeError /\ forall d, event <> JDict d)
      \/ (e = OverflowError
          /\ exists d key n s,
               event = JDict d /\ In key numeric_fields
               /\ dict_get d key = JInt n /\ of_Z n = S754_infinity s)).
Proof.
  destruct event as [|b|n|f|s|l|d];
    try (cbn; intros [= <- <-]; split; [reflexivity|]; left; split;
         [reflexivity | discriminate]).
  rewrite process_dict. unfold bind, lift, ret, emit. cbn beta iota zeta.
  assert (Hcase : forall key (v : result float64) err,
    In key numeric_fields -> _safe_float (dict_get d key) = Raise err ->
    err = OverflowError
    /\ exists d0 key0 n s, JDict d = JDict d0 /\ In key0 numeric_fields
         /\ dict_get d0 key0 = JInt n /\ of_Z n = S754_infinity s).
  { intros key _ err Hkey H.
    destruct (safe_float_raises_only_overflow _ _ H) as (-> & n & Hn).
    rewrite Hn in H. destruct (safe_float_int_overflow _ _ H) as [s Hs].
    split; [reflexivity|]. now exists d, key, n, s. }
  destruct (_safe_float (dict_get d "vehicle_CO")) as [co|e1] eqn:H1.
  2: { intros [= <- <-]. split; [reflexivity|]. right.
       apply (Hcase "vehicle_CO" (Raise e1)); [cbn; tauto | exact H1]. }
  destruct (_safe_float (dict_get d "vehicle_CO2")) as [co2|e2] eqn:H2.
  2: { intros [= <- <-]. split; [reflexivity|]. right.
       apply (Hcase "vehicle_CO2" (Raise e2)); [cbn; tauto | exact H2]. }
  destruct (_safe_float (dict_get d "vehicle_NOx")) as [nox|e3] eqn:H3.
  2: { intros [= <- <-]. split; [reflexivity|]. right.
       apply (Hcase "vehicle_NOx" (Raise e3)); [cbn; tauto | exact H3]. }
  destruct (_safe_float (dict_get d "vehicle_PMx")) as [pmx|e4] eqn:H4.
  2: { intros [= <- <-]. split; [reflexivity|]. right.
       apply (Hcase "vehicle_PMx" (Raise e4)); [cbn; tauto | exact H4]. }
  destruct (_safe_float (dict_get d "vehicle_speed")) as [speed|e5] eqn:H5.
  2: { intros [= <- <-]. split; [reflexivity|]. right.
       apply (Hcase "vehicle_speed" (Raise e5)); [cbn; tauto | exact H5]. }
  discriminate.
Qed.

(** A list for an event, and a speed of 10^400. *)
Lemma process_raises_only_witness :
  process _processor (JList []) [] = (Raise AttributeError, [])
  /\ process _processor (JDict [("vehicle_speed", JInt (10 ^ 400))]) []
     = (Raise OverflowError, []).
Proof.
  split.
  - destruct (process _processor (JList []) []) as [[r|e] t'] eqn:H.
    + vm_compute in H. discriminate.
    + destruct (process_raises_only _ _ _ _ _ H) as [-> [[-> _]|[_ (d & _ & _ & _ & Hd & _)]]].
      * reflexivity.
      * discriminate.
  - destruct (process _processor (JDict [("vehicle_speed", JInt (10 ^ 400))]) [])
      as [[r|e] t'] eqn:H.
    + vm_compute in H. discriminate.
    + destruct (process_raises_only _ _ _ _ _ H) as [-> [[_ Hd]|[-> _]]].
      * now destruct (Hd [("vehicle_speed", JInt (10 ^ 400))]).
      * reflexivity.
Defined.

(** A dict with a text that is no number, a [None], a list, an in-range
    integer and a missing field. *)
Lemma process_returns_unless_overflow_witness :
  exists r,
    process _processor
      (JDict [("vehicle_CO", JStr "n/a"); ("vehicle_CO2", JNull);
              ("vehicle_NOx", JList [JInt 1]); ("vehicle_PMx", JInt 3)]) []
    = (Ok r, [LogProcessed r]).
Proof.
  apply (process_returns_unless_overflow _processor
           [("vehicle_CO", JStr "n/a"); ("vehicle_CO2", JNull);
            ("vehicle_NOx", JList [JInt 1]); ("vehicle_PMx", JInt 3)] []).
  intros key n s [<-|[<-|[<-|[<-|[<-|[]]]]]]; vm_compute; intros [= <-];
    vm_compute; discriminate.
Defined.

(** X3. [process] looks at seven fields and nothing else: two dicts that
    agree on them give the same outcome, whatever else they hold. *)
Theorem process_ignores_other_fields (self : EmissionProcessor)
    (d1 d2 : list (string * json)) (t : list action) :
  (forall key, In key read_fields -> dict_get d1 key = dict_get d2 key) ->
  process self (JDict d1) t = process self (JDict d2) t.
Proof.
  intros Hd. rewrite !process_dict.
  rewrite !(Hd "timestep_time"), !(Hd "vehicle_id"), !(Hd "vehicle_CO"),
    !(Hd "vehicle_CO2"), !(Hd "vehicle_NOx"), !(Hd "vehicle_PMx"),
    !(Hd "vehicle_speed") by (cbn; tauto).
  reflexivity.
Qed.

(** The scenario event with three fields the evaluator does not read. *)
Lemma process_ignores_other_fields_witness :
  process _processor
    (JDict [ ("vehicle_HC", JStr "0.4"); ("vehicle_id", JStr "car-3");
             ("vehicle_type", JStr "sedan"); ("vehicle_CO2", JStr "9000");
             ("vehicle_x", JFloat (of_Z 12)); ("vehicle_CO", JStr "50");
             ("vehicle_NOx", JStr "2") ]) []
  = (Ok scenario_record, [LogProcessed scenario_record]).
Proof.
  rewrite (process_ignores_other_fields _processor _
             [ ("vehicle_id", JStr "car-3"); ("vehicle_CO2", JStr "9000");
               ("vehicle_CO", JStr "50"); ("vehicle_NOx", JStr "2") ] []).
  - vm_compute. reflexivity.
  - intros key [<-|[<-|[<-|[<-|[<-|[<-|[<-|[]]]]]]]]; reflexivity.
Defined.

(** X4. A record the evaluator has produced, handed back to it as an
    event, comes out unchanged: the evaluator is idempotent on its own
    output. *)
Theorem process_idempotent (self : EmissionProcessor) (event : json)
    (t t' t2 : list action) (r : emission_record) :
  process self event t = (Ok r, t') ->
  process self (record_to_dict r) t2 = (Ok r, (t2 ++ [LogProcessed r])%list).
Proof.
  intros H.
  pose proof (process_identifier_truthy _ _ _ _ _ H) as Hid.
  destruct (process_inv _ _ _ _ _ H)
    as (d & _ & _ & _ & _ & _ & _ & _ & _ & S2 & S1 & S3 & Hs & _).
  destruct r as [vid ts co co2 nox pmx speed s2 s1 s3 score].
  cbn [vehicle_id timestep_time vehicle_CO vehicle_CO2 vehicle_NOx vehicle_PMx
       vehicle_speed co2_status co_status nox_status emission_score] in *.
  unfold record_to_dict. rewrite process_dict.
  unfold bind, lift, ret, emit, dict_get.
  cbn [assoc String.eqb Ascii.eqb Bool.eqb default vehicle_id timestep_time
       vehicle_CO vehicle_CO2 vehicle_NOx vehicle_PMx vehicle_speed co2_status
       co_status nox_status emission_score _safe_float py_float].
  rewrite (py_or_truthy_l _ _ Hid). subst s1 s2 s3 score. reflexivity.
Qed.

(** The scenario record, evaluated again. *)
Lemma process_idempotent_witness :
  process _processor (record_to_dict scenario_record) []
  = (Ok scenario_record, [LogProcessed scenario_record]).
Proof.
  apply (process_idempotent _processor scenario_event [] [LogProcessed scenario_record]).
  vm_compute. reflexivity.
Defined.

(** X5. A reading that is NaN (the text "nan", or the JSON literal NaN)
    is never flagged: its status is ["OK"] under every threshold, and a
    NaN among the four pollutant readings makes the score NaN. *)
Theorem process_nan_reading (self : EmissionProcessor) (event : json)
    (t t' : list action) (r : emission_record) :
  process self event t = (Ok r, t') ->
  (vehicle_CO2 r = S754_nan -> co2_status r = "OK")
  /\ (vehicle_CO r = S754_nan -> co_status r = "OK")
  /\ (vehicle_NOx r = S754_nan -> nox_status r = "OK")
  /\ (vehicle_CO r = S754_nan \/ vehicle_CO2 r = S754_nan
      \/ vehicle_NOx r = S754_nan \/ vehicle_PMx r = S754_nan ->
      emission_score r = S754_nan).
Proof.
  intros H.
  destruct (process_inv _ _ _ _ _ H)
    as (d & _ & _ & _ & _ & _ & _ & _ & _ & S2 & S1 & S3 & Hs & _).
  rewrite S1, S2, S3, Hs.
  repeat apply conj.
  - intros ->. now rewrite geb_nan_l.
  - intros ->. now rewrite geb_nan_l.
  - intros ->. now rewrite geb_nan_l.
  - intros [ -> | [ -> | [ -> | -> ] ] ];
      rewrite ?mul_nan_l, ?add_nan_l, ?add_nan_r; reflexivity.
Qed.

(** A CO2 field holding the text "nan". *)
Lemma process_nan_reading_witness :
  match fst (process _processor (JDict [("vehicle_CO2", JStr "nan")]) []) with
  | Ok r => co2_status r = "OK" /\ emission_score r = S754_nan
  | Raise _ => False
  end.
Proof.
  destruct (process _processor (JDict [("vehicle_CO2", JStr "nan")]) [])
    as [[r|e] t'] eqn:H; cbn [fst].
  - destruct (process_nan_reading _ _ _ _ _ H) as (Hco2 & _ & _ & Hscore).
    vm_compute in H. injection H as <- <-.
    split; [apply Hco2; reflexivity | apply Hscore; right; left; reflexivity].
  - vm_compute in H. discriminate.
Defined.

End EvaluatorMore.

(* ===================================================================== *)
(** * Further properties of the handler and the subscription              *)
(* ===================================================================== *)

Section PipelineMore.
Import process_emission main_mqtt.
Context {R : Runtime}.

(** Evaluate the counts of a goal and leave the arithmetic to [lia]. *)
Ltac count_le :=
  repeat match goal with
  | |- context [count ?p ?l] =>
      let n := eval vm_compute in (count p l) in
      change (count p l) with n
  end; lia.

(** What one call of the handler adds to the trace, whatever the event
    and the sinks: at most one record, a live publish for it, a durable
    append only after that publish. *)
Lemma handle_vehicle_message_shape (mqtt : mqtt_client)
    (firehose : option firehose_client) (event : json) (t : list action) :
  exists before after,
    handle_vehicle_message mqtt firehose event t
    = (Ok tt, (t ++ before ++ after)%list)
    /\ (count is_record before <= 1)%nat
    /\ count is_publish before = count is_record before
    /\ count is_put_record before = 0%nat
    /\ count is_record after = 0%nat
    /\ count is_publish after = 0%nat
    /\ (count is_put_record after <= count is_publish before)%nat
    /\ outputs (before ++ after) =
       match py_get event "data" event with
       | Ok payload =>
           match fst (lambda_handler payload []) with
           | Ok r => [LogProcessed r; MqttPublish (live_topic r) (serialized r) 0]
           | Raise _ => []
           end
       | Raise _ => []
       end.
Proof.
  rewrite handle_vehicle_message_run.
  destruct (py_get event "data" event) as [payload|e].
  2: { exists [LogReceivedRaw event; LogHandlerError e], [].
       repeat apply conj; try reflexivity; count_le. }
  destruct (fst (lambda_handler payload [])) as [r|e].
  2: { exists [LogReceivedRaw event; LogHandlerError e], [].
       repeat apply conj; try reflexivity; count_le. }
  cbn zeta.
  exists [LogReceivedRaw event; LogProcessed r;
          LogPublishing (live_topic r) (serialized r);
          MqttPublish (live_topic r) (serialized r) 0].
  destruct (mqtt _ _ _ _) as [b|e].
  - destruct firehose as [client|].
    + destruct (client _ _ _) as [[]|fe]; eexists;
        (split; [cbn [app]; reflexivity|]);
        repeat apply conj; try reflexivity; count_le.
    + eexists. split; [cbn [app]; reflexivity|].
      repeat apply conj; try reflexivity; count_le.
  - eexists. split; [cbn [app]; reflexivity|].
    repeat apply conj; try reflexivity; count_le.
Qed.

Lemma outputs_app (t1 t2 : list action) :
  outputs (t1 ++ t2) = (outputs t1 ++ outputs t2)%list.
Proof. apply filter_app. Qed.

(** What one call of the callback adds to the trace. *)
Lemma on_message_callback_counts (mqtt : mqtt_client)
    (firehose : option firehose_client) (msg : message) (t : list action) :
  exists new,
    on_message_callback mqtt firehose msg t = (Ok tt, (t ++ new)%list)
    /\ (count is_record new <= 1)%nat
    /\ count is_publish new = count is_record new
    /\ (count is_put_record new <= count is_publish new)%nat.
Proof.
  rewrite on_message_callback_run.
  destruct (bytes_decode_utf8 (payload msg)) as [s|].
  2: { exists [LogDecodeFailed]. repeat apply conj; try reflexivity; count_le. }
  destruct (json_loads s) as [event|].
  2: { exists [LogMessageReceived (topic msg) s; LogDecodeFailed].
       repeat apply conj; try reflexivity; count_le. }
  destruct (handle_vehicle_message_shape mqtt firehose event
              (t ++ [LogMessageReceived (topic msg) s])%list)
    as (before & after & Hrun & Hr & Hp & Hf & Hr' & Hp' & Hf' & _).
  exists (LogMessageReceived (topic msg) s :: before ++ after)%list.
  split; [rewrite Hrun; now rewrite <- app_assoc|].
  change (LogMessageReceived (topic msg) s :: before ++ after)%list
    with ([LogMessageReceived (topic msg) s] ++ before ++ after)%list.
  rewrite !count_app.
  change (count is_record [LogMessageReceived (topic msg) s]) with 0%nat.
  change (count is_publish [LogMessageReceived (topic msg) s]) with 0%nat.
  change (count is_put_record [LogMessageReceived (topic msg) s]) with 0%nat.
  lia.
Qed.

(** X6. Whatever arrives and whatever the sinks answer, the subscription
    returns: no exception leaves a callback.  Over the messages handled,
    there is at most one record per message, exactly one live publish
    per record, and at most one durable append per live publish. *)
Theorem subscription_invariants (mqtt : mqtt_client)
    (firehose : option firehose_client) (inbound : list message)
    (t : list action) :
  exists new,
    subscription mqtt firehose inbound t = (Ok tt, (t ++ new)%list)
    /\ (count is_record new <= length inbound)%nat
    /\ count is_publish new = count is_record new
    /\ (count is_put_record new <= count is_publish new)%nat.
Proof.
  revert t. induction inbound as [|msg inbound IH]; intros t.
  - exists []. cbn. unfold ret. rewrite app_nil_r.
    repeat apply conj; try reflexivity; count_le.
  - unfold subscription. cbn [for_each]. unfold bind at 1.
    destruct (on_message_callback_counts mqtt firehose msg t)
      as (new1 & Hrun1 & Hr1 & Hp1 & Hf1).
    rewrite Hrun1. fold (subscription mqtt firehose inbound).
    destruct (IH (t ++ new1)%list) as (new2 & Hrun2 & Hr2 & Hp2 & Hf2).
    exists (new1 ++ new2)%list. rewrite Hrun2, <- app_assoc.
    split; [reflexivity|]. rewrite !count_app. cbn [length]. lia.
Qed.

(** X7. Inside one call of the handler the order is fixed: the record is
    logged and published on the live topic before the durable stream is
    touched, and nothing is published after a durable append. *)
Theorem handler_publishes_before_appending (mqtt : mqtt_client)
    (firehose : option firehose_client) (event : json) (t : list action) :
  exists before after,
    handle_vehicle_message mqtt firehose event t
    = (Ok tt, (t ++ before ++ after)%list)
    /\ count is_put_record before = 0%nat
    /\ count is_record after = 0%nat
    /\ count is_publish after = 0%nat
    /\ (count is_put_record after <= count is_publish before)%nat.
Proof.
  destruct (handle_vehicle_message_shape mqtt firehose event t)
    as (before & after & Hrun & _ & _ & Hf & Hr' & Hp' & Hf' & _).
  exists before, after. repeat apply conj; assumption.
Qed.

(** X8. The handler evaluates the value under ["data"] when the event
    has one and the event itself otherwise, and nothing else of the
    event: two events with the same payload give the same record and
    the same live publish, whatever else they hold and whatever the
    sinks answer. *)
Theorem handler_reads_payload_only (mqtt mqtt' : mqtt_client)
    (firehose firehose' : option firehose_client)
    (d d' : list (string * json)) (t t' : list action) :
  default (JDict d) (assoc "data" d) = default (JDict d') (assoc "data" d') ->
  exists new new',
    handle_vehicle_message mqtt firehose (JDict d) t = (Ok tt, (t ++ new)%list)
    /\ handle_vehicle_message mqtt' firehose' (JDict d') t' = (Ok tt, (t' ++ new')%list)
    /\ outputs new = outputs new'.
Proof.
  intros Hp.
  destruct (handle_vehicle_message_shape mqtt firehose (JDict d) t)
    as (b1 & a1 & Hrun1 & _ & _ & _ & _ & _ & _ & Hout1).
  destruct (handle_vehicle_message_shape mqtt' firehose' (JDict d') t')
    as (b2 & a2 & Hrun2 & _ & _ & _ & _ & _ & _ & Hout2).
  exists (b1 ++ a1)%list, (b2 ++ a2)%list.
  split; [exact Hrun1|]. split; [exact Hrun2|].
  rewrite Hout1, Hout2. rewrite !py_get_dict, Hp. reflexivity.
Qed.

(** X19. An event that is not a JSON object, or whose ["data"] field
    holds something that is not an object, is dropped: the handler logs
    the [AttributeError] and returns, with no record and no sink call,
    whatever readings the event carries beside ["data"]. *)
Theorem handler_drops_non_object_payload (mqtt : mqtt_client)
    (firehose : option firehose_client) (event : json) (t : list action) :
  (forall d, event <> JDict d)
  \/ (exists d v, event = JDict d /\ assoc "data" d = Some v
                  /\ forall d', v <> JDict d') ->
  handle_vehicle_message mqtt firehose event t
  = (Ok tt, (t ++ [LogReceivedRaw event; LogHandlerError AttributeError])%list).
Proof.
  intros H. rewrite handle_vehicle_message_run.
  destruct H as [H|(d & v & -> & Hv & Hnot)].
  - destruct event as [|b|n|f|s|l|d]; try reflexivity. now destruct (H d).
  - rewrite py_get_dict, Hv. cbn [default from_option].
    destruct v as [|b|n|f|s|l|d']; try reflexivity. now destruct (Hnot d').
Qed.

(** X20. What the subscription publishes on the live topic depends on
    the inbound messages alone: for each message that decodes, in
    arrival order, the record of its payload and one publish of that
    record, whatever the two sinks answer. *)
Theorem subscription_outputs_in_arrival_order (mqtt : mqtt_client)
    (firehose : option firehose_client) (inbound : list message)
    (t : list action) :
  exists new,
    subscription mqtt firehose inbound t = (Ok tt, (t ++ new)%list)
    /\ outputs new = flat_map event_outputs (omap decode inbound).
Proof.
  revert t. induction inbound as [|msg inbound IH]; intros t.
  - exists []. cbn. unfold ret. now rewrite app_nil_r.
  - unfold subscription. cbn [for_each]. unfold bind at 1.
    change (omap decode (msg :: inbound))
      with (match decode msg with
            | Some ev => ev :: omap decode inbound
            | None => omap decode inbound
            end).
    rewrite on_message_callback_run. unfold decode at 1.
    destruct (bytes_decode_utf8 (payload msg)) as [s|]; cbn [mbind option_bind].
    2: { destruct (IH (t ++ [LogDecodeFailed])%list) as (new & Hrun & Hout).
         fold (subscription mqtt firehose inbound). rewrite Hrun.
         exists (LogDecodeFailed :: new). rewrite <- app_assoc.
         split; [reflexivity|].
         unfold outputs. rewrite filter_cons_False by discriminate. exact Hout. }
    destruct (json_loads s) as [event|].
    2: { destruct (IH (t ++ [LogMessageReceived (topic msg) s; LogDecodeFailed])%list)
           as (new & Hrun & Hout).
         fold (subscription mqtt firehose inbound). rewrite Hrun.
         exists (LogMessageReceived (topic msg) s :: LogDecodeFailed :: new).
         rewrite <- app_assoc. split; [reflexivity|].
         unfold outputs. rewrite !filter_cons_False by discriminate. exact Hout. }
    destruct (handle_vehicle_message_shape mqtt firehose event
                (t ++ [LogMessageReceived (topic msg) s])%list)
      as (before & after & Hrun1 & _ & _ & _ & _ & _ & _ & Hout1).
    rewrite Hrun1. fold (subscription mqtt firehose inbound).
    destruct (IH ((t ++ [LogMessageReceived (topic msg) s]) ++ before ++ after)%list)
      as (new & Hrun & Hout).
    rewrite Hrun.
    exists ([LogMessageReceived (topic msg) s] ++ (before ++ after) ++ new)%list.
    rewrite <- !app_assoc. split; [reflexivity|].
    cbn [flat_map]. rewrite !outputs_app, Hout.
    rewrite (app_assoc (outputs before)), <- outputs_app, Hout1. reflexivity.
Qed.

End PipelineMore.

(** The scenario event sent as the HTTPS publisher wraps it and sent
    flat, to sinks that differ. *)
Lemma handler_reads_payload_only_witness :
  exists new new',
    main_mqtt.handle_vehicle_message (R := Example.runtime) Example.mqtt_up None
      (JDict [("device_id", JStr "lab4-car-3"); ("data", scenario_event)]) []
    = (Ok tt, new)
    /\ main_mqtt.handle_vehicle_message (R := Example.runtime) Example.mqtt_down
         (Some Example.firehose_up)
         (JDict [ ("vehicle_id", JStr "car-3"); ("vehicle_CO2", JStr "9000");
                  ("vehicle_CO", JStr "50"); ("vehicle_NOx", JStr "2") ]) []
       = (Ok tt, new')
    /\ outputs new = outputs new'.
Proof.
  exact (handler_reads_payload_only (R := Example.runtime)
           Example.mqtt_up Example.mqtt_down None (Some Example.firehose_up)
           [("device_id", JStr "lab4-car-3"); ("data", scenario_event)]
           [ ("vehicle_id", JStr "car-3"); ("vehicle_CO2", JStr "9000");
             ("vehicle_CO", JStr "50"); ("vehicle_NOx", JStr "2") ]
           [] [] eq_refl).
Defined.

(* ===================================================================== *)
(** * What is written to the sinks                                        *)
(* ===================================================================== *)

Section Serialization.

Lemma contains_app (c : ascii) (a b : string) :
  PyText.contains c (a ++ b) = PyText.contains c a || PyText.contains c b.
Proof.
  induction a as [|x a IH]; [reflexivity|].
  change (PyText.contains c (String x a ++ b))
    with (Ascii.eqb c x || PyText.contains c (a ++ b)).
  change (PyText.contains c (String x a))
    with (Ascii.eqb c x || PyText.contains c a).
  now rewrite IH, orb_assoc.
Qed.

Lemma one_line_app (a b : string) : one_line a -> one_line b -> one_line (a ++ b).
Proof. unfold one_line. intros Ha Hb. now rewrite contains_app, Ha, Hb. Qed.

Lemma one_line_cons (c : ascii) (s : string) :
  Ascii.eqb "010" c = false -> one_line s -> one_line (String c s).
Proof. unfold one_line. cbn [PyText.contains]. now intros -> ->. Qed.

Lemma escape_char_one_line (c : ascii) : one_line (PyText.escape_char c).
Proof. destruct c as [[] [] [] [] [] [] [] []]; reflexivity. Qed.

Lemma escape_one_line (s : string) : one_line (PyText.escape s).
Proof.
  induction s as [|c s IH]; [reflexivity|].
  cbn [PyText.escape]. apply one_line_app; [apply escape_char_one_line | exact IH].
Qed.

Lemma quoted_one_line (s : string) : one_line (PyText.quoted s).
Proof.
  unfold PyText.quoted. apply one_line_app; [reflexivity|].
  apply one_line_app; [apply escape_one_line | reflexivity].
Qed.

Lemma uint_one_line (d : Decimal.uint) : one_line (NilEmpty.string_of_uint d).
Proof. induction d; cbn [NilEmpty.string_of_uint]; try reflexivity;
  now apply one_line_cons. Qed.

Lemma of_Z_one_line (n : Z) : one_line (PyText.of_Z n).
Proof.
  unfold PyText.of_Z, NilZero.string_of_int, NilZero.string_of_uint.
  destruct (Z.to_int n) as [d|d].
  - destruct d; try reflexivity; apply uint_one_line.
  - apply one_line_cons; [reflexivity|].
    destruct d; try reflexivity; apply uint_one_line.
Qed.

Lemma join_one_line (sep : string) (l : list string) :
  one_line sep -> Forall one_line l -> one_line (PyText.join sep l).
Proof.
  intros Hsep Hl. induction Hl as [|x l Hx Hl IH]; [reflexivity|].
  destruct l as [|y l]; [exact Hx|].
  change (PyText.join sep (x :: y :: l)) with (x ++ sep ++ PyText.join sep (y :: l)).
  apply one_line_app; [exact Hx|]. apply one_line_app; [exact Hsep | exact IH].
Qed.

(** Induction on a JSON value, through its lists and dicts. *)
Lemma json_nested_ind (P : json -> Prop) :
  P JNull ->
  (forall b, P (JBool b)) ->
  (forall n, P (JInt n)) ->
  (forall f, P (JFloat f)) ->
  (forall s, P (JStr s)) ->
  (forall l, Forall P l -> P (JList l)) ->
  (forall d, Forall (fun kv => P (snd kv)) d -> P (JDict d)) ->
  forall v, P v.
Proof.
  intros HN HB HI HF HS HL HD.
  fix IH 1. intros [|b|n|f|s|l|d].
  - exact HN.
  - apply HB.
  - apply HI.
  - apply HF.
  - apply HS.
  - apply HL. induction l as [|v l IHl]; constructor; [apply IH | exact IHl].
  - apply HD. induction d as [|[k v] d IHd]; constructor; [apply IH | exact IHd].
Qed.

Context {R : Runtime}.
Hypothesis float_repr_one_line : forall f, one_line (float_repr f).

Lemma json_float_one_line (f : float64) : one_line (PyText.json_float f).
Proof.
  destruct f as [s|[]| |s m e]; cbn [PyText.json_float];
    try reflexivity; apply float_repr_one_line.
Qed.

(** [json.dumps] never writes a newline: it escapes the one a text holds. *)
Lemma json_dumps_one_line (v : json) : one_line (PyText.json_dumps v).
Proof.
  induction v as [|b|n|f|s|l Hl|d Hd] using json_nested_ind.
  - reflexivity.
  - now destruct b.
  - apply of_Z_one_line.
  - apply json_float_one_line.
  - apply quoted_one_line.
  - cbn [PyText.json_dumps]. apply one_line_app; [reflexivity|].
    apply one_line_app; [|reflexivity].
    apply join_one_line; [reflexivity|].
    induction Hl; constructor; assumption.
  - cbn [PyText.json_dumps]. apply one_line_app; [reflexivity|].
    apply one_line_app; [|reflexivity].
    apply join_one_line; [reflexivity|].
    induction Hd as [|[k v] d Hv Hd IH]; constructor; [|exact IH].
    cbn [fst snd]. apply one_line_app; [apply quoted_one_line|].
    apply one_line_app; [reflexivity | exact Hv].
Qed.

(** X9. What the handler sends is line-oriented: when [float.__repr__]
    writes no newline, the payload of a live publish holds no newline,
    and what is appended to the durable stream is one such text followed
    by a newline, so each append is exactly one line, whatever texts the
    event carried. *)
Theorem sink_payloads_are_lines (mqtt : main_mqtt.mqtt_client)
    (firehose : option main_mqtt.firehose_client) (event : json)
    (t : list action) :
  exists new,
    main_mqtt.handle_vehicle_message mqtt firehose event t = (Ok tt, (t ++ new)%list)
    /\ Forall (fun a =>
         match a with
         | MqttPublish _ payload _ => one_line payload
         | FirehosePutRecord _ data =>
             exists body, data = body ++ String "010" EmptyString /\ one_line body
         | _ => True
         end) new.
Proof.
  rewrite handle_vehicle_message_run. eexists. split; [reflexivity|].
  assert (Hs : forall r, one_line (serialized r)).
  { intros r. apply json_dumps_one_line. }
  destruct (py_get event "data" event) as [payload|e].
  2: { repeat constructor. }
  destruct (fst (process_emission.lambda_handler payload [])) as [r|e].
  2: { repeat constructor. }
  cbn zeta.
  destruct (mqtt _ _ _ _) as [b|e]; [destruct firehose as [client|];
    [destruct (client _ _ _) as [[]|fe]|]|];
    repeat (apply Forall_cons; split); try apply Forall_nil; try exact I;
    try apply Hs.
  all: exists (serialized r); split; [reflexivity | apply Hs].
Qed.

End Serialization.

Lemma zeros_one_line (n : nat) : one_line (Example.zeros n).
Proof. induction n as [|n IH]; [reflexivity|]. now apply one_line_cons. Qed.

Lemma exact_decimal_one_line (f : float64) : one_line (Example.exact_decimal f).
Proof.
  assert (Hsign : forall s : bool, one_line (if s then "-" else EmptyString)).
  { now intros []. }
  destruct f as [[]|s| |s m e]; try reflexivity.
  unfold Example.exact_decimal.
  destruct (0 <=? e).
  - apply one_line_app; [apply Hsign|].
    apply one_line_app; [apply of_Z_one_line | reflexivity].
  - destruct (Example.reduce _ _ _) as [n k]. destruct (k =? 0).
    + apply one_line_app; [apply Hsign|].
      apply one_line_app; [apply of_Z_one_line | reflexivity].
    + apply one_line_app; [apply Hsign|].
      apply one_line_app; [apply of_Z_one_line|].
      apply one_line_app; [reflexivity|].
      unfold Example.pad. apply one_line_app; [apply zeros_one_line | apply of_Z_one_line].
Qed.

(** An event whose identifier holds a newline. *)
Lemma sink_payloads_are_lines_witness :
  exists new,
    main_mqtt.handle_vehicle_message (R := Example.runtime) Example.mqtt_up
      (Some Example.firehose_up)
      (JDict [("vehicle_id", JStr ("car" ++ String "010" "3")); ("vehicle_CO", JInt 7)]) []
    = (Ok tt, new)
    /\ Forall (fun a =>
         match a with
         | MqttPublish _ payload _ => one_line payload
         | FirehosePutRecord _ data =>
             exists body, data = body ++ String "010" EmptyString /\ one_line body
         | _ => True
         end) new.
Proof.
  exact (sink_payloads_are_lines (R := Example.runtime) exact_decimal_one_line
           Example.mqtt_up (Some Example.firehose_up)
           (JDict [("vehicle_id", JStr ("car" ++ String "010" "3")); ("vehicle_CO", JInt 7)])
           []).
Defined.

(* ===================================================================== *)
(** * Further properties of the fleet publishers                          *)
(* ===================================================================== *)

Section PublishersMore.
Context {R : Runtime}.

Lemma for_each_app {E A} (l1 l2 : list A) (body : A -> M E unit) (t : list E) :
  for_each (l1 ++ l2) body t =
  match for_each l1 body t with
  | (Ok _, t1) => for_each l2 body t1
  | (Raise e, t1) => (Raise e, t1)
  end.
Proof.
  revert t. induction l1 as [|x l1 IH]; intros t; [reflexivity|].
  cbn [app for_each]. unfold bind.
  destruct (body x t) as [[[]|e] t1]; [apply IH | reflexivity].
Qed.

Lemma mqtt_publish_missing (fs : filesystem) (c : emulator_mqtt.MQTTClient)
    (topic : string) (t : list emu_action) :
  dataset fs (emulator_mqtt.numeric_id c) = None ->
  emulator_mqtt.publish fs c topic t = (Raise FileNotFoundError, t).
Proof.
  unfold dataset, emulator_mqtt.publish, path_exists. intros ->.
  rewrite bool_decide_eq_false_2 by (now intros [? ?]). reflexivity.
Qed.

Lemma mqtt_publish_present (fs : filesystem) (c : emulator_mqtt.MQTTClient)
    (topic : string) (t : list emu_action) :
  is_Some (dataset fs (emulator_mqtt.numeric_id c)) -> accepts c ->
  exists new,
    emulator_mqtt.publish fs c topic t = (Ok tt, (t ++ new)%list)
    /\ sent_payloads new = map mqtt_payload (rows_of fs (emulator_mqtt.numeric_id c)).
Proof.
  intros [df Hdf] Hup. unfold rows_of. rewrite Hdf. cbn [default from_option].
  destruct (path_exists_lookup _ _ _ Hdf) as [Hex Hread].
  unfold emulator_mqtt.publish. rewrite Hex, Hread. cbn [negb].
  unfold bind at 1, lift. rewrite (mqtt_rows_run c topic df Hup).
  eexists. split; [reflexivity|].
  clear. induction df as [|r df IH]; [reflexivity|].
  cbn [flat_map map]. rewrite sent_payloads_app, IH. reflexivity.
Qed.

Lemma mqtt_round_run (fs : filesystem)
    (clients : list emulator_mqtt.MQTTClient) (topic : string)
    (t : list emu_action) :
  (forall c, In c clients ->
             is_Some (dataset fs (emulator_mqtt.numeric_id c)) /\ accepts c) ->
  exists new,
    for_each clients (fun c => emulator_mqtt.publish fs c topic) t
    = (Ok tt, (t ++ new)%list)
    /\ sent_payloads new
       = flat_map (fun c => map mqtt_payload (rows_of fs (emulator_mqtt.numeric_id c)))
                  clients.
Proof.
  revert t. induction clients as [|c clients IH]; intros t Hall.
  - exists []. cbn. unfold ret. now rewrite app_nil_r.
  - destruct (Hall c (or_introl eq_refl)) as [Hds Hup].
    destruct (mqtt_publish_present fs c topic t Hds Hup) as (new1 & Hrun1 & Hs1).
    destruct (IH (t ++ new1)%list (fun c' H => Hall c' (or_intror H)))
      as (new2 & Hrun2 & Hs2).
    exists (new1 ++ new2)%list. cbn [for_each flat_map]. unfold bind.
    rewrite Hrun1, Hrun2, <- app_assoc. split; [reflexivity|].
    now rewrite sent_payloads_app, Hs1, Hs2.
Qed.

(** X11. One round of the MQTT publisher over clients that all have a
    dataset and whose transport accepts every message: the round
    returns and has sent, client after client in list order, every row
    of each client's dataset in file order. *)
Theorem mqtt_round_sends_every_dataset (fs : filesystem)
    (clients : list emulator_mqtt.MQTTClient) (topic : string)
    (t : list emu_action) :
  (forall c, In c clients ->
             is_Some (dataset fs (emulator_mqtt.numeric_id c)) /\ accepts c) ->
  exists new,
    for_each clients (fun c => emulator_mqtt.publish fs c topic) t
    = (Ok tt, (t ++ new)%list)
    /\ sent_payloads new
       = flat_map (fun c => map mqtt_payload (rows_of fs (emulator_mqtt.numeric_id c)))
                  clients.
Proof. apply mqtt_round_run. Qed.

(** X12. One round of the MQTT publisher stops at the first client
    whose dataset is missing: the clients before it have sent all their
    rows, [FileNotFoundError] leaves the loop, and the clients after it
    send nothing. *)
Theorem mqtt_round_stops_at_missing_dataset (fs : filesystem)
    (before after : list emulator_mqtt.MQTTClient) (c : emulator_mqtt.MQTTClient)
    (topic : string) (t : list emu_action) :
  (forall c0, In c0 before ->
              is_Some (dataset fs (emulator_mqtt.numeric_id c0)) /\ accepts c0) ->
  dataset fs (emulator_mqtt.numeric_id c) = None ->
  exists new,
    for_each (before ++ c :: after) (fun c => emulator_mqtt.publish fs c topic) t
    = (Raise FileNotFoundError, (t ++ new)%list)
    /\ sent_payloads new
       = flat_map (fun c0 => map mqtt_payload (rows_of fs (emulator_mqtt.numeric_id c0)))
                  before.
Proof.
  intros Hbefore Hmissing.
  destruct (mqtt_round_run fs before topic t Hbefore)
    as (new & Hrun & Hsent).
  exists new. rewrite for_each_app, Hrun. cbn [for_each]. unfold bind.
  rewrite (mqtt_publish_missing fs c topic _ Hmissing). split; [reflexivity | exact Hsent].
Qed.






(** X17. Both command loops return only on the key [d]: if a run
    returns, some line read from standard input was [d] (after
    [strip()], and [lower()] for the HTTPS publisher).  Any other way
    out is an exception, [EOFError] at the end of input included. *)
Theorem command_loops_return_only_on_d :
  (forall (fs : filesystem) (clients : list emulator_mqtt.MQTTClient)
          (stdin : list string) (t : list emu_action),
      fst (emulator_mqtt.command_loop fs clients stdin t) = Ok tt ->
      exists line, In line stdin /\ PyStr.strip line = "d")
  /\ (forall (fs : filesystem) (iot_data : emulator_https.iot_data_client)
             (stdin : list string) (t : list emu_action),
      fst (emulator_https.main_loop fs iot_data stdin t) = Ok tt ->
      exists line, In line stdin /\ PyStr.lower (PyStr.strip line) = "d").
Proof.
  split.
  - intros fs clients stdin. induction stdin as [|line rest IH]; intros t.
    + cbn. discriminate.
    + cbn [emulator_mqtt.command_loop]. unfold bind at 1. unfold emit at 1.
      destruct (String.eqb_spec (PyStr.strip line) "s") as [Hs|Hs].
      * unfold bind at 1.
        destruct (for_each clients _ _) as [[[]|e] t1]; [|discriminate].
        unfold bind at 1, emit at 1. intros H.
        destruct (IH _ H) as (l & Hin & Hl). exists l. split; [now right | exact Hl].
      * destruct (String.eqb_spec (PyStr.strip line) "d") as [Hd|Hd].
        -- intros _. exists line. split; [now left | exact Hd].
        -- unfold bind at 1, emit at 1. unfold bind at 1, emit at 1. intros H.
           destruct (IH _ H) as (l & Hin & Hl). exists l. split; [now right | exact Hl].
  - intros fs iot_data stdin. induction stdin as [|line rest IH]; intros t.
    + cbn. discriminate.
    + cbn [emulator_https.main_loop]. unfold bind at 1. unfold emit at 1.
      destruct (String.eqb_spec (PyStr.lower (PyStr.strip line)) "s") as [Hs|Hs].
      * unfold bind at 1.
        destruct (for_each _ _ _) as [[[]|e] t1]; [|discriminate].
        unfold bind at 1, emit at 1. unfold bind at 1, emit at 1. intros H.
        destruct (IH _ H) as (l & Hin & Hl). exists l. split; [now right | exact Hl].
      * destruct (String.eqb_spec (PyStr.lower (PyStr.strip line)) "d") as [Hd|Hd].
        -- intros _. exists line. split; [now left | exact Hd].
        -- unfold bind at 1, emit at 1. unfold bind at 1, emit at 1. intros H.
           destruct (IH _ H) as (l & Hin & Hl). exists l. split; [now right | exact Hl].
Qed.

Lemma disconnect_all_run (clients : list emulator_mqtt.MQTTClient)
    (t : list emu_action) :
  (forall c, In c clients ->
             forall t0, emulator_mqtt.disconnect (emulator_mqtt.client c) t0 = Ok tt) ->
  for_each clients
    (fun c => call (Disconnect (emulator_mqtt.device_id c))
                   (fun t0 => emulator_mqtt.disconnect (emulator_mqtt.client c) t0)) t
  = (Ok tt, t ++ map (fun c => Disconnect (emulator_mqtt.device_id c)) clients)%list.
Proof.
  revert t. induction clients as [|c clients IH]; intros t Hall.
  - cbn. unfold ret. now rewrite app_nil_r.
  - cbn [for_each map]. unfold bind, call.
    rewrite (Hall c (or_introl eq_refl)).
    rewrite (IH _ (fun c' H => Hall c' (or_intror H))), <- app_assoc. reflexivity.
Qed.

(** X18. In the MQTT script, keys other than [s] and [d] reach no
    device: after any number of them, the key [d] disconnects every
    client once, in list order, and the loop returns without having
    sent a message and without reading what follows on standard
    input. *)
Theorem mqtt_loop_disconnects_on_d (fs : filesystem)
    (clients : list emulator_mqtt.MQTTClient) (other : list string)
    (line : string) (rest : list string) (t : list emu_action) :
  Forall (fun l => PyStr.strip l <> "s" /\ PyStr.strip l <> "d") other ->
  PyStr.strip line = "d" ->
  (forall c, In c clients ->
             forall t0, emulator_mqtt.disconnect (emulator_mqtt.client c) t0 = Ok tt) ->
  exists new,
    emulator_mqtt.command_loop fs clients (other ++ line :: rest) t
    = (Ok tt, (t ++ new)%list)
    /\ sent_payloads new = []
    /\ filter (fun a => is_disconnect a = true) new
       = map (fun c => Disconnect (emulator_mqtt.device_id c)) clients
    /\ emulator_mqtt.command_loop fs clients (other ++ [line]) t
       = (Ok tt, (t ++ new)%list).
Proof.
  intros Hother Hline Hdisc. revert t.
  assert (Hd : forall tail t,
    emulator_mqtt.command_loop fs clients (line :: tail) t
    = (Ok tt, t ++ Stdout Prompt
                 :: map (fun c => Disconnect (emulator_mqtt.device_id c)) clients
                 ++ [Stdout AllDisconnected])%list).
  { intros tail t. cbn [emulator_mqtt.command_loop]. rewrite Hline.
    cbn [String.eqb Ascii.eqb Bool.eqb]. unfold bind at 1, emit at 1.
    unfold bind at 1. rewrite (disconnect_all_run clients _ Hdisc).
    unfold emit. rewrite <- !app_assoc. reflexivity. }
  assert (Hmap : forall l : list emulator_mqtt.MQTTClient,
    sent_payloads (map (fun c => Disconnect (emulator_mqtt.device_id c)) l) = []
    /\ filter (fun a => is_disconnect a = true)
         (map (fun c => Disconnect (emulator_mqtt.device_id c)) l)
       = map (fun c => Disconnect (emulator_mqtt.device_id c)) l).
  { induction l as [|c l [IH1 IH2]]; [split; reflexivity|]. cbn [map]. split.
    - exact IH1.
    - rewrite filter_cons_True by reflexivity. now rewrite IH2. }
  induction Hother as [|l other [Hs Hd'] Hother IH]; intros t.
  - cbn [app]. rewrite !Hd. eexists. split; [reflexivity|].
    destruct (Hmap clients) as [H1 H2].
    change (sent_payloads (Stdout Prompt :: ?x)) with (sent_payloads x).
    rewrite sent_payloads_app, H1.
    rewrite filter_cons_False by discriminate.
    rewrite filter_app, H2.
    repeat apply conj; try reflexivity. now rewrite app_nil_r.
  - assert (Hstep : forall tail,
      emulator_mqtt.command_loop fs clients (l :: tail) t
      = emulator_mqtt.command_loop fs clients tail
          (t ++ [Stdout Prompt; Stdout InvalidKey; Sleep (of_Z 2)])%list).
    { intros tail. cbn [emulator_mqtt.command_loop].
      destruct (String.eqb_spec (PyStr.strip l) "s") as [E|_]; [now destruct Hs|].
      destruct (String.eqb_spec (PyStr.strip l) "d") as [E|_]; [now destruct Hd'|].
      unfold bind at 1, emit at 1. unfold bind at 1, emit at 1.
      unfold bind at 1, emit at 1. now rewrite <- !app_assoc. }
    cbn [app]. rewrite !Hstep.
    destruct (IH (t ++ [Stdout Prompt; Stdout InvalidKey; Sleep (of_Z 2)])%list)
      as (new & Hrun & Hsent & Hdis & Hrun').
    exists ([Stdout Prompt; Stdout InvalidKey; Sleep (of_Z 2)] ++ new)%list.
    rewrite Hrun, Hrun', <- !app_assoc. repeat apply conj; try reflexivity.
    + rewrite sent_payloads_app, Hsent. reflexivity.
    + rewrite filter_app, Hdis. reflexivity.
Qed.

End PublishersMore.

(** * The start-up of the MQTT script *)

Section Startup.
Import emulator_mqtt emulator_mqtt_startup.
Variable files : gset string.
Variable sdk : Z -> sdk_client.
Variable connect : Z -> list init_action -> result bool.

Lemma with_credentials_cons (i : Z) (ids : list Z) :
  with_credentials files (i :: ids) =
  if bool_decide (certificate_path i ∈ files) && bool_decide (key_path i ∈ files)
  then i :: with_credentials files ids else with_credentials files ids.
Proof.
  unfold with_credentials.
  destruct (decide (certificate_path i ∈ files)) as [Hc|Hc];
    destruct (decide (key_path i ∈ files)) as [Hk|Hk];
    rewrite ?(bool_decide_eq_true_2 _ Hc), ?(bool_decide_eq_true_2 _ Hk),
      ?(bool_decide_eq_false_2 _ Hc), ?(bool_decide_eq_false_2 _ Hk); cbn [andb].
  - now rewrite filter_cons_True.
  - rewrite filter_cons_False; [reflexivity | tauto].
  - rewrite filter_cons_False; [reflexivity | tauto].
  - rewrite filter_cons_False; [reflexivity | tauto].
Qed.

Lemma init_clients_run (ids : list Z) :
  (forall i, In i ids -> forall t0, exists b, connect i t0 = Ok b) ->
  forall clients t,
  exists new,
    init_clients files sdk connect ids clients t
    = (Ok (clients ++ map (fun i => MQTTClient_init i (sdk i))
                          (with_credentials files ids))%list,
       (t ++ new)%list)
    /\ length (filter (fun a => is_connect a = true) new)
       = length (with_credentials files ids).
Proof.
  induction ids as [|i ids IH]; intros Hup clients t.
  - exists []. cbn. unfold ret. now rewrite !app_nil_r.
  - cbn [init_clients]. rewrite with_credentials_cons.
    destruct (bool_decide (certificate_path i ∈ files) && bool_decide (key_path i ∈ files)).
    + cbn [negb]. unfold bind at 1, emit at 1. unfold bind at 1, call at 1.
      destruct (Hup i (or_introl eq_refl)
                  (t ++ [ConnectingLine (device_id (MQTTClient_init i (sdk i)))])%list)
        as [b Hb].
      rewrite Hb. unfold bind at 1, emit at 1.
      destruct (IH (fun j H => Hup j (or_intror H))
                  (clients ++ [MQTTClient_init i (sdk i)])%list
                  (((t ++ [ConnectingLine (device_id (MQTTClient_init i (sdk i)))])
                    ++ [Connect (device_id (MQTTClient_init i (sdk i)))])
                    ++ [ConnectedLine (device_id (MQTTClient_init i (sdk i)))])%list)
        as (new & Hrun & Hcount).
      exists ([ConnectingLine (device_id (MQTTClient_init i (sdk i)));
               Connect (device_id (MQTTClient_init i (sdk i)));
               ConnectedLine (device_id (MQTTClient_init i (sdk i)))] ++ new)%list.
      rewrite Hrun, <- !app_assoc. split; [reflexivity|].
      rewrite filter_app, length_app, Hcount. reflexivity.
    + cbn [negb]. unfold bind at 1, emit at 1.
      destruct (IH (fun j H => Hup j (or_intror H)) clients
                  (t ++ [SkippingLine i (certificate_path i) (key_path i)])%list)
        as (new & Hrun & Hcount).
      exists (SkippingLine i (certificate_path i) (key_path i) :: new).
      rewrite Hrun, <- app_assoc. split; [reflexivity|].
      rewrite filter_cons_False by discriminate. exact Hcount.
Qed.

(** X15. The start-up of the MQTT script, when every connection attempt
    returns: the clients it builds are the cars 1 to 10 that have both
    a certificate and a key file, in car order, each connected once; if
    no car qualifies it ends on [SystemExit(1)]. *)
Theorem start_selects_cars_with_credentials (t : list init_action) :
  (forall i t0, exists b, connect i t0 = Ok b) ->
  exists new,
    start files sdk connect t
    = (Ok match with_credentials files (range 1 11) with
          | [] => SystemExit 1
          | ids => Ready (map (fun i => MQTTClient_init i (sdk i)) ids)
          end,
       (t ++ new)%list)
    /\ length (filter (fun a => is_connect a = true) new)
       = length (with_credentials files (range 1 11)).
Proof.
  intros Hup. unfold start, bind.
  destruct (init_clients_run (range device_st device_end) (fun i _ => Hup i) [] t)
    as (new & Hrun & Hcount).
  rewrite Hrun. cbn [app].
  change (range device_st device_end) with (range 1 11) in *.
  destruct (with_credentials files (range 1 11)) as [|i ids].
  - exists (new ++ [NoClientsLine])%list. cbn [map]. unfold emit.
    rewrite <- app_assoc. split; [reflexivity|].
    rewrite filter_app, length_app, Hcount. reflexivity.
  - exists new. split; [reflexivity | exact Hcount].
Qed.

(** X16. A connection attempt that raises ends the start-up: the
    exception leaves the loop, the cars after it are never tried, and
    the script does not reach its command loop. *)
Theorem init_clients_stops_at_failed_connect (before after : list Z) (i : Z)
    (e : exn) (clients : list MQTTClient) (t : list init_action) :
  (forall j, In j before -> forall t0, exists b, connect j t0 = Ok b) ->
  certificate_path i ∈ files -> key_path i ∈ files ->
  (forall t0, connect i t0 = Raise e) ->
  exists new,
    init_clients files sdk connect (before ++ i :: after) clients t
    = (Raise e, (t ++ new)%list)
    /\ length (filter (fun a => is_connect a = true) new)
       = S (length (with_credentials files before)).
Proof.
  revert clients t. induction before as [|j before IH]; intros clients t Hup Hc Hk He.
  - cbn [app init_clients].
    rewrite (bool_decide_eq_true_2 _ Hc), (bool_decide_eq_true_2 _ Hk). cbn [andb negb].
    unfold bind at 1, emit at 1. unfold bind at 1, call at 1. rewrite He.
    eexists. rewrite <- app_assoc. split; reflexivity.
  - cbn [app init_clients]. rewrite with_credentials_cons.
    destruct (bool_decide (certificate_path j ∈ files) && bool_decide (key_path j ∈ files)).
    + cbn [negb]. unfold bind at 1, emit at 1. unfold bind at 1, call at 1.
      destruct (Hup j (or_introl eq_refl)
                  (t ++ [ConnectingLine (device_id (MQTTClient_init j (sdk j)))])%list)
        as [b Hb].
      rewrite Hb. unfold bind at 1, emit at 1.
      edestruct (IH (clients ++ [MQTTClient_init j (sdk j)])%list)
        as (new & Hrun & Hcount); [intros; apply Hup; now right | exact Hc | exact Hk | exact He |].
      rewrite Hrun.
      exists ([ConnectingLine (device_id (MQTTClient_init j (sdk j)));
               Connect (device_id (MQTTClient_init j (sdk j)));
               ConnectedLine (device_id (MQTTClient_init j (sdk j)))] ++ new)%list.
      rewrite <- !app_assoc. split; [reflexivity|].
      rewrite filter_app, length_app, Hcount. reflexivity.
    + cbn [negb]. unfold bind at 1, emit at 1.
      edestruct (IH clients) as (new & Hrun & Hcount);
        [intros; apply Hup; now right | exact Hc | exact Hk | exact He |].
      rewrite Hrun.
      exists (SkippingLine j (certificate_path j) (key_path j) :: new).
      rewrite <- app_assoc. split; [reflexivity|].
      rewrite filter_cons_False by discriminate. exact Hcount.
Qed.

End Startup.

(** ** Closed instances for the publishers *)

Section PublisherInstances.
Import ExampleFleet.

Lemma car2_ready (c : emulator_mqtt.MQTTClient) :
  In c [car2] ->
  is_Some (dataset Example.only_car2 (emulator_mqtt.numeric_id c)) /\ accepts c.
Proof.
  intros [<-|[]]. split; [now exists Example.car2_rows | now intros ? ? ? ?].
Qed.

(** Car 2 alone, on a machine that has its dataset. *)
Lemma mqtt_round_sends_every_dataset_witness :
  exists new,
    for_each [car2]
      (fun c => emulator_mqtt.publish (R := Example.runtime) Example.only_car2 c
                  emulator_mqtt.default_topic) []
    = (Ok tt, new)
    /\ sent_payloads new = map (mqtt_payload (R := Example.runtime)) Example.car2_rows.
Proof.
  destruct (mqtt_round_sends_every_dataset (R := Example.runtime) Example.only_car2
              [car2] emulator_mqtt.default_topic [] car2_ready)
    as (new & Hrun & Hsent).
  exists new. split; [exact Hrun|]. rewrite Hsent. reflexivity.
Defined.

(** Car 2, then car 1 whose dataset is missing, then car 2 again. *)
Lemma mqtt_round_stops_at_missing_dataset_witness :
  exists new,
    for_each [car2; car1; car2]
      (fun c => emulator_mqtt.publish (R := Example.runtime) Example.only_car2 c
                  emulator_mqtt.default_topic) []
    = (Raise FileNotFoundError, new)
    /\ sent_payloads new = map (mqtt_payload (R := Example.runtime)) Example.car2_rows.
Proof.
  destruct (mqtt_round_stops_at_missing_dataset (R := Example.runtime)
              Example.only_car2 [car2] [car2] car1 emulator_mqtt.default_topic []
              car2_ready eq_refl)
    as (new & Hrun & Hsent).
  exists new. split; [exact Hrun|]. rewrite Hsent. reflexivity.
Defined.


(** Two stray keys, then [d] with blanks around it, then a line that is
    never read. *)
Lemma mqtt_loop_disconnects_on_d_witness :
  exists new,
    emulator_mqtt.command_loop (R := Example.runtime) Example.only_car2 [car1; car2]
      ["x"; "D"; " d "; "s"] []
    = (Ok tt, new)
    /\ sent_payloads new = []
    /\ filter (fun a => is_disconnect a = true) new
       = [Disconnect "lab4-car-1"; Disconnect "lab4-car-2"].
Proof.
  destruct (mqtt_loop_disconnects_on_d (R := Example.runtime) Example.only_car2
              [car1; car2] ["x"; "D"] " d " ["s"] [])
    as (new & Hrun & Hsent & Hdis & _).
  - repeat constructor; discriminate.
  - reflexivity.
  - intros c [<-|[<-|[]]] t0; reflexivity.
  - exists new. split; [exact Hrun|]. split; [exact Hsent | exact Hdis].
Defined.

(** An MQTT run that returns, and the [d] it read. *)
Lemma command_loops_return_only_on_d_witness :
  exists line,
    In line ["x"; " d "; "s"] /\ PyStr.strip line = "d".
Proof.
  apply (proj1 (command_loops_return_only_on_d (R := Example.runtime))
           Example.only_car2 [car2] ["x"; " d "; "s"] []).
  vm_compute. reflexivity.
Defined.

(** Car 2 is the one car with both credential files. *)
Lemma start_selects_cars_with_credentials_witness :
  fst (emulator_mqtt_startup.start credentials sdk_for connect_up [])
  = Ok (emulator_mqtt_startup.Ready [car2]).
Proof.
  destruct (start_selects_cars_with_credentials credentials sdk_for connect_up []
              (fun _ _ => ex_intro _ true eq_refl))
    as (new & Hrun & _).
  rewrite Hrun. vm_compute. reflexivity.
Defined.

(** The connection of car 2 times out; car 3 would have been next. *)
Lemma init_clients_stops_at_failed_connect_witness :
  exists new,
    emulator_mqtt_startup.init_clients credentials sdk_for connect_down [1; 2; 3] [] []
    = (Raise (SdkError "connectTimeoutException"), new)
    /\ length (filter (fun a => is_connect a = true) new) = 1%nat.
Proof.
  destruct (init_clients_stops_at_failed_connect credentials sdk_for connect_down
              [1] [3] 2 (SdkError "connectTimeoutException") [] [])
    as (new & Hrun & Hcount).
  - intros j [<-|[]] t0. now exists true.
  - vm_compute. reflexivity.
  - vm_compute. reflexivity.
  - reflexivity.
  - exists new. split; [exact Hrun|]. rewrite Hcount. vm_compute. reflexivity.
Defined.

End PublisherInstances.

(** ** Closed instances for the handler *)

(** A flat event with valid readings and a column named data. *)
Lemma handler_drops_non_object_payload_witness :
  main_mqtt.handle_vehicle_message (R := Example.runtime) Example.mqtt_up
    (Some Example.firehose_up)
    (JDict [("vehicle_CO2", JStr "9000"); ("data", JInt 5)]) []
  = (Ok tt,
     [LogReceivedRaw (JDict [("vehicle_CO2", JStr "9000"); ("data", JInt 5)]);
      LogHandlerError AttributeError]).
Proof.
  apply (handler_drops_non_object_payload (R := Example.runtime) Example.mqtt_up
           (Some Example.firehose_up)
           (JDict [("vehicle_CO2", JStr "9000"); ("data", JInt 5)]) []).
  right. exists [("vehicle_CO2", JStr "9000"); ("data", JInt 5)], (JInt 5).
  repeat split; discriminate.
Defined.
